(** * Monitoring shims of the API backend: Sentry redaction hooks and the
      Application Insights adapter (src/api/src/lib/monitoring).

    Shallow embedding of the two Python modules [sentry.py] and
    [app_insights.py].  Python values reaching the hooks are modelled as a
    JSON-like tree [Value]; a Python [dict] is an association list in
    insertion order with string keys.  Python exceptions are threaded
    through a small error monad [py].  The in-place mutation of the nested
    dicts of an event is written back into the tree at the same key, which
    is what the mutation does for a tree without shared sub-objects. *)

From Stdlib Require Import Bool List String Ascii ZArith QArith Lia.
Import ListNotations.
Open Scope string_scope.
#[local] Set Warnings "-register-all".

(* ------------------------------------------------------------------ *)
(** ** Python values, exceptions and the operations the code uses *)

Module Py.

Inductive exn : Type :=
| TypeError
| AttributeError
| KeyError.

(** A computation that either raises a Python exception or returns. *)
Definition py (A : Type) : Type := (exn + A)%type.

Definition ret {A} (a : A) : py A := inr a.
Definition raise {A} (e : exn) : py A := inl e.

Definition bind {A B} (m : py A) (k : A -> py B) : py B :=
  match m with
  | inl e => inl e
  | inr a => k a
  end.

Notation "'let*' x := m 'in' k" := (bind m (fun x => k))
  (at level 200, x binder, m at level 100, k at level 200).

Inductive Value : Type :=
| VNone
| VBool (b : bool)
| VInt (z : Z)
| VFloat (q : Q)
| VStr (s : string)
| VDict (d : list (string * Value)).

Definition dict : Type := list (string * Value).

(** [k in d] for a dict *)
Definition dict_contains (d : dict) (k : string) : bool :=
  existsb (fun kv => String.eqb (fst kv) k) d.

(** [d.get(k)] *)
Fixpoint dict_get (d : dict) (k : string) : option Value :=
  match d with
  | [] => None
  | (k', v) :: d' => if String.eqb k' k then Some v else dict_get d' k
  end.

(** [d.get(k, default)] *)
Definition dict_get_default (d : dict) (k : string) (dflt : Value) : Value :=
  match dict_get d k with Some v => v | None => dflt end.

(** [d.pop(k, None)]: removes the key if present, never raises. *)
Definition dict_pop (d : dict) (k : string) : dict :=
  filter (fun kv => negb (String.eqb (fst kv) k)) d.

(** [d[k] = v]: an existing key keeps its position, a new key is appended. *)
Definition dict_set (d : dict) (k : string) (v : Value) : dict :=
  if dict_contains d k
  then List.map (fun kv => if String.eqb (fst kv) k then (k, v) else kv) d
  else app d [(k, v)].

(** Substring test on strings: [needle in s]. *)
Fixpoint str_contains (needle s : string) : bool :=
  match s with
  | EmptyString => String.prefix needle s
  | String _ s' => String.prefix needle s || str_contains needle s'
  end.

(** [s.replace(old, new)] for a non-empty [old]: left-to-right,
    non-overlapping occurrences.  [skip] counts the characters of the
    occurrence just replaced that are still to be dropped. *)
Fixpoint replace_aux (old new : string) (skip : nat) (s : string) : string :=
  match s with
  | EmptyString => EmptyString
  | String c s' =>
      match skip with
      | S k => replace_aux old new k s'
      | O =>
          if String.prefix old s
          then new ++ replace_aux old new (String.length old - 1) s'
          else String c (replace_aux old new 0 s')
      end
  end.

Definition str_replace (old new s : string) : string :=
  replace_aux old new 0 s.

(** [str.lower()] on ASCII characters. *)
Definition ascii_lower (c : ascii) : ascii :=
  let n := nat_of_ascii c in
  if (65 <=? n)%nat && (n <=? 90)%nat then ascii_of_nat (n + 32) else c.

Fixpoint str_lower (s : string) : string :=
  match s with
  | EmptyString => EmptyString
  | String c s' => String (ascii_lower c) (str_lower s')
  end.

(** Truthiness ([if x:]). *)
Definition truthy (v : Value) : bool :=
  match v with
  | VNone => false
  | VBool b => b
  | VInt z => negb (Z.eqb z 0)
  | VFloat q => negb (Z.eqb (Qnum q) 0)
  | VStr s => negb (String.eqb s "")
  | VDict d => match d with [] => false | _ => true end
  end.

(** [k in v] with a string [k]: key membership for a dict, substring
    test for a str, [TypeError] otherwise. *)
Definition py_in (k : string) (v : Value) : py bool :=
  match v with
  | VDict d => ret (dict_contains d k)
  | VStr s => ret (str_contains k s)
  | _ => raise TypeError
  end.

(** [v[k]] with a string [k]. *)
Definition py_getitem (v : Value) (k : string) : py Value :=
  match v with
  | VDict d => match dict_get d k with Some x => ret x | None => raise KeyError end
  | _ => raise TypeError
  end.

(** [v[k] = x] *)
Definition py_setitem (v : Value) (k : string) (x : Value) : py Value :=
  match v with
  | VDict d => ret (VDict (dict_set d k x))
  | _ => raise TypeError
  end.

(** [v.pop(k, None)] *)
Definition py_pop (v : Value) (k : string) : py Value :=
  match v with
  | VDict d => ret (VDict (dict_pop d k))
  | _ => raise AttributeError
  end.

(** [v.replace(old, new)] *)
Definition py_replace (v : Value) (old new : string) : py Value :=
  match v with
  | VStr s => ret (VStr (str_replace old new s))
  | _ => raise AttributeError
  end.

(** [list(v.keys())] *)
Definition py_keys (v : Value) : py (list string) :=
  match v with
  | VDict d => ret (List.map fst d)
  | _ => raise AttributeError
  end.

(** [v.get(k, default)] *)
Definition py_get (v : Value) (k : string) (dflt : Value) : py Value :=
  match v with
  | VDict d => ret (dict_get_default d k dflt)
  | _ => raise AttributeError
  end.

(** [any(x in v for x in xs)], short-circuiting. *)
Fixpoint py_any_in (xs : list string) (v : Value) : py bool :=
  match xs with
  | [] => ret false
  | x :: xs' => let* b := py_in x v in if b then ret true else py_any_in xs' v
  end.

End Py.

(* ------------------------------------------------------------------ *)
(** ** sentry.py: the [before_send] and [before_breadcrumb] hooks *)

Module Sentry.
Import Py.

Definition REDACTED : Value := VStr "[REDACTED]".

(** Lines 80-84: [if "headers" in request: headers.pop(...)] *)
Definition strip_headers (request : Value) : py Value :=
  let* has := py_in "headers" request in
  if has then
    let* headers := py_getitem request "headers" in
    let* headers := py_pop headers "authorization" in
    let* headers := py_pop headers "cookie" in
    let* headers := py_pop headers "x-api-key" in
    py_setitem request "headers" headers
  else ret request.

(** Lines 87-93: [if "query_string" in request: ... query.replace(...)] *)
Definition sanitize_query (request : Value) : py Value :=
  let* has := py_in "query_string" request in
  if has then
    let* query := py_getitem request "query_string" in
    if truthy query then
      let* sanitized := py_replace query "token=" "token=[REDACTED]" in
      let* sanitized := py_replace sanitized "api_key=" "api_key=[REDACTED]" in
      py_setitem request "query_string" sanitized
    else ret request
  else ret request.

(** [("password" in key.lower() or "secret" in key.lower())] *)
Definition sensitive_key (key : string) : bool :=
  str_contains "password" (str_lower key) || str_contains "secret" (str_lower key).

(** Lines 99-101: [for key in list(extra.keys()): ... extra[key] = "[REDACTED]"] *)
Fixpoint redact_keys (keys : list string) (extra : Value) : py Value :=
  match keys with
  | [] => ret extra
  | key :: keys' =>
      let* extra := if sensitive_key key then py_setitem extra key REDACTED
                    else ret extra in
      redact_keys keys' extra
  end.

Definition redact_extra (extra : Value) : py Value :=
  let* keys := py_keys extra in
  redact_keys keys extra.

(** Lines 105-117: the database and Stripe contexts. *)
Definition redact_contexts (contexts : Value) : py Value :=
  let* has_db := py_in "database" contexts in
  let* contexts :=
    if has_db then
      let* db := py_getitem contexts "database" in
      let* has_cs := py_in "connection_string" db in
      if has_cs then
        let* db := py_setitem db "connection_string" REDACTED in
        py_setitem contexts "database" db
      else ret contexts
    else ret contexts in
  let* has_stripe := py_in "stripe" contexts in
  if has_stripe then
    let* stripe := py_getitem contexts "stripe" in
    let* stripe := py_pop stripe "secret_key" in
    let* stripe := py_pop stripe "api_key" in
    py_setitem contexts "stripe" stripe
  else ret contexts.

(** [before_send_filter(event, hint)]: [inr (Some e)] is a returned event
    (Keep), [inr None] would be a returned [None] (Drop), [inl x] a raised
    exception. *)
Definition before_send_filter (event : dict) (hint : dict) : py (option dict) :=
  let* event :=
    match dict_get event "request" with
    | Some request =>
        let* request := strip_headers request in
        let* request := sanitize_query request in
        ret (dict_set event "request" request)
    | None => ret event
    end in
  let* event :=
    match dict_get event "extra" with
    | Some extra =>
        let* extra := redact_extra extra in
        ret (dict_set event "extra" extra)
    | None => ret event
    end in
  let* event :=
    match dict_get event "contexts" with
    | Some contexts =>
        let* contexts := redact_contexts contexts in
        ret (dict_set event "contexts" contexts)
    | None => ret event
    end in
  ret (Some event).

(** [x == "lit"] for a value and a string literal. *)
Definition value_is_str (v : option Value) (lit : string) : bool :=
  match v with
  | Some (VStr s) => String.eqb s lit
  | _ => false
  end.

(** [before_breadcrumb_filter(crumb, hint)] *)
Definition before_breadcrumb_filter (crumb : dict) (hint : dict) : py (option dict) :=
  if value_is_str (dict_get crumb "category") "query" then ret None
  else if value_is_str (dict_get crumb "category") "httplib" then
    let* url := py_get (dict_get_default crumb "data" (VDict [])) "url" (VStr "") in
    let* hit := py_any_in ["analytics"; "tracking"; "segment"; "mixpanel"] url in
    if hit then ret None else ret (Some crumb)
  else ret (Some crumb).

(** The shape of a Sentry event at the paths the hook touches: each entry,
    when present, is a mapping ([query_string] a string). *)
Definition is_dict (v : Value) : bool :=
  match v with VDict _ => true | _ => false end.

Definition is_str (v : Value) : bool :=
  match v with VStr _ => true | _ => false end.

Definition entry_ok (d : dict) (k : string) (p : Value -> bool) : bool :=
  match dict_get d k with Some v => p v | None => true end.

Definition wf_request (v : Value) : bool :=
  match v with
  | VDict d => entry_ok d "headers" is_dict && entry_ok d "query_string" is_str
  | _ => false
  end.

Definition wf_contexts (v : Value) : bool :=
  match v with
  | VDict d => entry_ok d "database" is_dict && entry_ok d "stripe" is_dict
  | _ => false
  end.

Definition wf_event (event : dict) : bool :=
  entry_ok event "request" wf_request && entry_ok event "extra" is_dict
  && entry_ok event "contexts" wf_contexts.

(** The analytics-vendor substrings of line 140. *)
Definition url_denylisted (url : string) : bool :=
  existsb (fun x => str_contains x url) ["analytics"; "tracking"; "segment"; "mixpanel"].

(** One entry of the [extra] mapping after the loop of lines 99-101. *)
Definition redact_entry (kv : string * Value) : string * Value :=
  if sensitive_key (fst kv) then (fst kv, REDACTED) else kv.

End Sentry.

(* ------------------------------------------------------------------ *)
(** ** app_insights.py: the Application Insights adapter *)

Module AppInsights.
Import Py.

Inductive Level : Type := DEBUG | INFO | WARNING | ERROR | CRITICAL.

(** A raised Python exception object: [type(e).__name__], [str(e)], and
    whether its class derives from [Exception] (and not only from
    [BaseException], as [asyncio.CancelledError] or [KeyboardInterrupt]). *)
Record PyErr : Type := {
  err_type : string;
  err_message : string;
  err_is_exception : bool }.

(** Vendor objects created by [init_app_insights]; [*_id] is the object's
    identity (a fresh object at every construction). *)
Record Tracer : Type := {
  tracer_id : nat;
  tracer_sampling_rate : Q;
  tracer_connection : string }.

Record MetricsExporter : Type := {
  mexp_id : nat;
  mexp_connection : string }.

Record LogHandler : Type := {
  handler_id : nat;
  handler_connection : string }.

(** Module globals [_tracer], [_metrics_exporter], [_logger], together with
    the process-wide state of [logging.getLogger(__name__)] (its handlers
    and level), which outlives any rebinding of [_logger]. *)
Record State : Type := {
  tracer : option Tracer;
  metrics_exporter : option MetricsExporter;
  logger : option string;
  logger_handlers : list LogHandler;
  logger_level : option Level;
  next_object : nat }.

Definition module_name : string := "lib.monitoring.app_insights".

(** The state at import time: the three globals are [None]. *)
Definition initial_state : State :=
  {| tracer := None; metrics_exporter := None; logger := None;
     logger_handlers := []; logger_level := None; next_object := 0 |}.

(** Calls made on vendor clients (the opencensus / Azure exporters and the
    logger carrying the Azure handler). *)
Inductive VendorCall : Type :=
| TraceIntegrations (libs : list string)
| LoggerCall (lvl : Level) (msg : string) (exc_info : option PyErr)
             (custom_dimensions : dict)
| RegisterView (name : string)
| RecordMeasurement (measure : string) (value : Value) (tags : dict)
| ExportTraces (t : Tracer)
| ExportMetrics (m : MetricsExporter).

Fixpoint getenv (env : list (string * string)) (k : string) : option string :=
  match env with
  | [] => None
  | (k', v) :: env' => if String.eqb k' k then Some v else getenv env' k
  end.

(** The vendor constructors that may raise inside the [try] block. *)
Inductive InitStep : Type :=
| StepIntegrations | StepAzureExporter | StepMetricsExporter | StepLogHandler.

(** [init_app_insights()].  [vendor_raises s] says whether the vendor call
    of step [s] raises (caught by [except Exception]); what was assigned
    before it stays assigned. *)
Definition init_app_insights (vendor_raises : InitStep -> bool)
    (env : list (string * string)) (st : State) : State * list VendorCall :=
  match getenv env "APPLICATIONINSIGHTS_CONNECTION_STRING" with
  | None | Some EmptyString => (st, [])
  | Some connection_string =>
      let environment :=
        match getenv env "APPINSIGHTS_ENVIRONMENT" with
        | Some e => e
        | None => match getenv env "NODE_ENV" with Some e => e | None => "development" end
        end in
      if vendor_raises StepIntegrations then (st, []) else
      let calls := [TraceIntegrations ["requests"; "sqlalchemy"; "postgresql"]] in
      let sampling_rate := if String.eqb environment "production" then 1 # 10 else 1%Q in
      if vendor_raises StepAzureExporter then (st, calls) else
      let st1 :=
        {| tracer := Some {| tracer_id := next_object st;
                             tracer_sampling_rate := sampling_rate;
                             tracer_connection := connection_string |};
           metrics_exporter := metrics_exporter st; logger := logger st;
           logger_handlers := logger_handlers st; logger_level := logger_level st;
           next_object := S (next_object st) |} in
      if vendor_raises StepMetricsExporter then (st1, calls) else
      let st3 :=
        {| tracer := tracer st1;
           metrics_exporter := Some {| mexp_id := next_object st1;
                                       mexp_connection := connection_string |};
           logger := Some module_name;
           logger_handlers := logger_handlers st1; logger_level := logger_level st1;
           next_object := S (next_object st1) |} in
      if vendor_raises StepLogHandler then (st3, calls) else
      ({| tracer := tracer st3; metrics_exporter := metrics_exporter st3;
          logger := logger st3;
          logger_handlers :=
            app (logger_handlers st3)
                [{| handler_id := next_object st3; handler_connection := connection_string |}];
          logger_level := Some INFO;
          next_object := S (next_object st3) |}, calls)
  end.

(** [{**d1, **d2}] *)
Definition merge (d1 d2 : dict) : dict :=
  fold_left (fun acc kv => dict_set acc (fst kv) (snd kv)) d2 d1.

(** [properties or {}] *)
Definition or_empty (d : option dict) : dict :=
  match d with Some d => d | None => [] end.

Definition track_event (st : State) (name : string) (properties measurements : option dict)
    : list VendorCall :=
  match logger st with
  | None => []
  | Some _ =>
      [LoggerCall INFO ("Event: " ++ name) None
         (merge (merge [("event_name", VStr name)] (or_empty properties))
                (or_empty measurements))]
  end.

(** The loop over [properties.items()] rebinds [value], so the value handed
    to [measure_float_put] is the last property value when there is one. *)
Definition track_metric (st : State) (name : string) (value : Q) (properties : option dict)
    : list VendorCall :=
  match metrics_exporter st with
  | None => []
  | Some _ =>
      let tags := match properties with Some d => d | None => [] end in
      let value := last (List.map snd tags) (VFloat value) in
      [RegisterView name; RecordMeasurement name value tags]
  end.

Definition track_exception (st : State) (error : PyErr) (severity : string)
    (properties : option dict) : list VendorCall :=
  match logger st with
  | None => []
  | Some _ =>
      let extra := merge [("exception_type", VStr (err_type error));
                          ("exception_message", VStr (err_message error))]
                         (or_empty properties) in
      if String.eqb severity "CRITICAL" then
        [LoggerCall CRITICAL (err_message error) (Some error) extra]
      else if String.eqb severity "WARNING" then
        [LoggerCall WARNING (err_message error) (Some error) extra]
      else
        [LoggerCall ERROR (err_message error) (Some error) extra]
  end.

Definition track_trace (st : State) (message severity : string) (properties : option dict)
    : list VendorCall :=
  match logger st with
  | None => []
  | Some _ =>
      let extra := or_empty properties in
      if String.eqb severity "DEBUG" then [LoggerCall DEBUG message None extra]
      else if String.eqb severity "WARNING" then [LoggerCall WARNING message None extra]
      else if String.eqb severity "ERROR" then [LoggerCall ERROR message None extra]
      else if String.eqb severity "CRITICAL" then [LoggerCall CRITICAL message None extra]
      else [LoggerCall INFO message None extra]
  end.

Definition track_request (st : State) (name url : string) (duration : Q)
    (response_code : Z) (success : bool) (properties : option dict) : list VendorCall :=
  match logger st with
  | None => []
  | Some _ =>
      [LoggerCall INFO ("Request: " ++ name) None
         (merge [("request_name", VStr name); ("url", VStr url);
                 ("duration_ms", VFloat duration); ("response_code", VInt response_code);
                 ("success", VBool success)] (or_empty properties))]
  end.

Definition track_dependency (st : State) (name dependency_type target : string)
    (duration : Q) (success : bool) (result_code : option Z) (properties : option dict)
    : list VendorCall :=
  match logger st with
  | None => []
  | Some _ =>
      [LoggerCall INFO ("Dependency: " ++ name) None
         (merge [("dependency_name", VStr name); ("dependency_type", VStr dependency_type);
                 ("target", VStr target); ("duration_ms", VFloat duration);
                 ("success", VBool success);
                 ("result_code", match result_code with Some c => VInt c | None => VNone end)]
                (or_empty properties))]
  end.

Definition flush (st : State) : list VendorCall :=
  app (match tracer st with Some t => [ExportTraces t] | None => [] end)
      (match metrics_exporter st with Some m => [ExportMetrics m] | None => [] end).

(** The FastAPI middleware of [get_fastapi_middleware()]. *)
Record Request : Type := {
  req_method : string;
  req_url_path : string;
  req_url : string }.

Record Response : Type := { status_code : Z }.

(** How an awaited call ends: a returned value or a raised exception. *)
Inductive Outcome (A : Type) : Type :=
| Returned (a : A)
| Raised (e : PyErr).
Arguments Returned {A} a.
Arguments Raised {A} e.

(** Calls the middleware makes to the adapter's tracking functions. *)
Inductive Tracking : Type :=
| CallTrackRequest (name url : string) (duration : Q) (response_code : Z)
                   (success : bool) (properties : dict)
| CallTrackException (error : PyErr) (severity : string) (properties : dict).

(** [app_insights_middleware(request, call_next)]: [call_next] is how the
    awaited handler ends, [start_time]/[end_time] the two [time.time()]
    readings.  Only exceptions deriving from [Exception] are caught; the
    tracking functions themselves return normally (see [run_tracking]). *)
Definition app_insights_middleware (request : Request) (call_next : Outcome Response)
    (start_time end_time : Q) : Outcome Response * list Tracking :=
  let props := [("method", VStr (req_method request)); ("path", VStr (req_url_path request))] in
  match call_next with
  | Returned response =>
      let duration := ((end_time - start_time) * 1000)%Q in
      (Returned response,
       [CallTrackRequest (req_method request ++ " " ++ req_url_path request)
          (req_url request) duration (status_code response)
          (Z.ltb (status_code response) 400) props])
  | Raised e =>
      if err_is_exception e
      then (Raised e, [CallTrackException e "ERROR" props])
      else (Raised e, [])
  end.

(** The vendor calls a tracking call performs. *)
Definition run_tracking (st : State) (t : Tracking) : list VendorCall :=
  match t with
  | CallTrackRequest name url d code ok props =>
      track_request st name url d code ok (Some props)
  | CallTrackException e sev props => track_exception st e sev (Some props)
  end.

End AppInsights.

(* ------------------------------------------------------------------ *)
(** ** sentry.py: [init_sentry] *)

Module SentryInit.
Import Py Sentry.

(** The integration objects passed to [sentry_sdk.init]. *)
Inductive Integration : Type :=
| FastApiIntegration (transaction_style : string)
| StarletteIntegration (transaction_style : string)
| SqlAlchemyIntegration.

(** The keyword arguments of the [sentry_sdk.init] call. *)
Record SentryOptions : Type := {
  opt_dsn : string;
  opt_environment : string;
  opt_traces_sample_rate : Q;
  opt_profiles_sample_rate : Q;
  opt_integrations : list Integration;
  opt_before_send : dict -> dict -> py (option dict);
  opt_before_breadcrumb : dict -> dict -> py (option dict) }.

(** [init_sentry()]: [None] when it returns before calling [sentry_sdk.init],
    otherwise the options of that call. *)
Definition init_sentry (env : list (string * string)) : option SentryOptions :=
  match AppInsights.getenv env "SENTRY_DSN" with
  | None | Some EmptyString => None
  | Some dsn =>
      let environment :=
        match AppInsights.getenv env "SENTRY_ENVIRONMENT" with
        | Some e => e
        | None => match AppInsights.getenv env "NODE_ENV" with
                  | Some e => e
                  | None => "development"
                  end
        end in
      Some {| opt_dsn := dsn;
              opt_environment := environment;
              opt_traces_sample_rate :=
                if String.eqb environment "production" then 1 # 10 else 1%Q;
              opt_profiles_sample_rate :=
                if String.eqb environment "production" then 1 # 10 else 1%Q;
              opt_integrations := [FastApiIntegration "endpoint";
                                   StarletteIntegration "endpoint";
                                   SqlAlchemyIntegration];
              opt_before_send := before_send_filter;
              opt_before_breadcrumb := before_breadcrumb_filter |}
  end.

End SentryInit.

(* ------------------------------------------------------------------ *)
(** ** The order in which [init_app_insights] sets the globals *)

Module AdapterInvariants.
Import AppInsights.



End AdapterInvariants.

(* ------------------------------------------------------------------ *)
(** ** State of an event after one pass of [before_send_filter] *)

Module RedactionInvariants.
Import Py Sentry.

(** Every entry of [d] with key [k] holds [v], and there is one. *)
Definition pinned (d : dict) (k : string) (v : Value) : Prop :=
  dict_contains d k = true /\ forall v', In (k, v') d -> v' = v.

(** A query string the two [replace] calls leave as it is. *)
Definition no_key_in_query (s : string) : bool :=
  negb (str_contains "token=" s) && negb (str_contains "api_key=" s).

Definition headers_done (rd : dict) : Prop :=
  dict_get rd "headers" = None
  \/ exists hd, pinned rd "headers"
                  (VDict (dict_pop (dict_pop (dict_pop hd "authorization") "cookie") "x-api-key")).

Definition query_done (rd : dict) : Prop :=
  match dict_get rd "query_string" with
  | None => True
  | Some q => truthy q = false
              \/ exists s, q = VStr s /\ no_key_in_query s = true /\ pinned rd "query_string" q
  end.

Definition database_done (cd : dict) : Prop :=
  match dict_get cd "database" with
  | None => True
  | Some (VDict db) =>
      dict_contains db "connection_string" = false
      \/ (pinned cd "database" (VDict db) /\ pinned db "connection_string" REDACTED)
  | Some _ => False
  end.

Definition stripe_done (cd : dict) : Prop :=
  dict_get cd "stripe" = None
  \/ exists sd, pinned cd "stripe" (VDict (dict_pop (dict_pop sd "secret_key") "api_key")).

Definition event_done (event : dict) : Prop :=
  (dict_get event "request" = None
   \/ exists rd, pinned event "request" (VDict rd) /\ headers_done rd /\ query_done rd)
  /\ (dict_get event "extra" = None
      \/ exists m, pinned event "extra" (VDict (List.map redact_entry m)))
  /\ (dict_get event "contexts" = None
      \/ exists cd, pinned event "contexts" (VDict cd) /\ database_done cd /\ stripe_done cd).

End RedactionInvariants.

(* ------------------------------------------------------------------ *)
(** ** Facts about the Python dict operations *)

Module DictFacts.
Import Py.

Lemma bind_inr {A B} (m : py A) (k : A -> py B) (b : B) :
  bind m k = inr b -> exists a, m = inr a /\ k a = inr b.
Proof. destruct m; simpl; [discriminate | eauto]. Qed.

Lemma dict_contains_get (d : dict) (k : string) :
  dict_contains d k = match dict_get d k with Some _ => true | None => false end.
Proof.
  induction d as [|[k' v] d IH]; [reflexivity|].
  unfold dict_contains in *; simpl. destruct (String.eqb k' k); simpl; auto.
Qed.

Lemma dict_get_app (d d' : dict) (k : string) :
  dict_get (app d d') k = match dict_get d k with Some v => Some v | None => dict_get d' k end.
Proof.
  induction d as [|[k' v] d IH]; [reflexivity|].
  simpl. destruct (String.eqb k' k); auto.
Qed.

Lemma dict_get_map_other (d : dict) (k k' : string) (v : Value) :
  k <> k' ->
  dict_get (List.map (fun kv => if String.eqb (fst kv) k then (k, v) else kv) d) k'
  = dict_get d k'.
Proof.
  intros Hne. induction d as [|[k0 v0] d IH]; [reflexivity|].
  simpl. destruct (String.eqb k0 k) eqn:E0; simpl.
  - apply String.eqb_eq in E0; subst k0.
    apply String.eqb_neq in Hne. rewrite Hne. exact IH.
  - rewrite IH. reflexivity.
Qed.

Lemma dict_get_set_other (d : dict) (k k' : string) (v : Value) :
  k <> k' -> dict_get (dict_set d k v) k' = dict_get d k'.
Proof.
  intros Hne. unfold dict_set. destruct (dict_contains d k).
  - apply dict_get_map_other; exact Hne.
  - rewrite dict_get_app. simpl.
    apply String.eqb_neq in Hne. rewrite Hne.
    destruct (dict_get d k'); reflexivity.
Qed.

Lemma dict_get_set_same (d : dict) (k : string) (v : Value) :
  dict_get (dict_set d k v) k = Some v.
Proof.
  unfold dict_set. destruct (dict_contains d k) eqn:Ec.
  - induction d as [|[k0 v0] d IH]; [discriminate|].
    unfold dict_contains in Ec; simpl in Ec |- *.
    destruct (String.eqb k0 k) eqn:E0; simpl.
    + rewrite String.eqb_refl. reflexivity.
    + rewrite E0. apply IH. exact Ec.
  - rewrite dict_get_app. rewrite dict_contains_get in Ec.
    destruct (dict_get d k); [discriminate|]. simpl.
    rewrite String.eqb_refl. reflexivity.
Qed.

End DictFacts.

(* ------------------------------------------------------------------ *)
(** ** The redaction hooks *)

Module SentryProofs.
Import Py Sentry DictFacts.

(** The loop over the keys rewrites every entry whose key is sensitive and
    was listed, and nothing else. *)
Lemma redact_keys_map (keys : list string) (m : dict) :
  (forall k, In k keys -> In k (List.map fst m)) ->
  redact_keys keys (VDict m)
  = inr (VDict (List.map (fun kv => if sensitive_key (fst kv)
                                       && existsb (String.eqb (fst kv)) keys
                                    then (fst kv, REDACTED) else kv) m)).
Proof.
  revert m. induction keys as [|k keys IH]; intros m Hin; simpl; unfold ret.
  - f_equal. f_equal. rewrite <- (List.map_id m) at 1.
    apply List.map_ext. intros [k v]. simpl. rewrite andb_false_r. reflexivity.
  - destruct (sensitive_key k) eqn:Hs; simpl.
    + assert (Hc : dict_contains m k = true).
      { rewrite dict_contains_get. assert (Hk : In k (List.map fst m)) by (apply Hin; left; reflexivity).
        clear -Hk. induction m as [|[k0 v0] m IHm]; simpl in *; [contradiction|].
        destruct (String.eqb k0 k) eqn:E; [reflexivity|].
        apply IHm. destruct Hk as [Hk|Hk]; [|exact Hk].
        subst k0. rewrite String.eqb_refl in E. discriminate. }
      unfold dict_set. rewrite Hc. rewrite IH.
      * f_equal. f_equal. rewrite List.map_map. apply List.map_ext. intros [k0 v0]. simpl.
        destruct (String.eqb k0 k) eqn:E; simpl.
        -- apply String.eqb_eq in E. subst k0. rewrite Hs. simpl.
           try rewrite String.eqb_refl; simpl.
           destruct (existsb (String.eqb k) keys); reflexivity.
        -- reflexivity.
      * intros k' Hk'. rewrite List.map_map.
        assert (Hfst : List.map (fun x => fst (if String.eqb (fst x) k then (k, REDACTED) else x)) m
                       = List.map fst m).
        { apply List.map_ext. intros [k0 v0]. simpl.
          destruct (String.eqb k0 k) eqn:E; [apply String.eqb_eq in E; subst; reflexivity | reflexivity]. }
        rewrite Hfst. apply Hin. right. exact Hk'.
    + rewrite IH.
      * f_equal. f_equal. apply List.map_ext. intros [k0 v0]. simpl.
        destruct (String.eqb k0 k) eqn:E; simpl.
        -- apply String.eqb_eq in E. subst k0. rewrite Hs. reflexivity.
        -- reflexivity.
      * intros k' Hk'. apply Hin. right. exact Hk'.
Qed.

Lemma redact_extra_dict (m : dict) :
  redact_extra (VDict m) = inr (VDict (List.map redact_entry m)).
Proof.
  unfold redact_extra. simpl. rewrite redact_keys_map by (intros k Hk; exact Hk).
  f_equal. f_equal. apply List.map_ext_in. intros [k v] Hkv. unfold redact_entry. simpl.
  assert (Hm : existsb (String.eqb k) (List.map fst m) = true).
  { apply existsb_exists. exists k. split; [|apply String.eqb_refl].
    apply (in_map fst) in Hkv. exact Hkv. }
  rewrite Hm, andb_true_r. reflexivity.
Qed.

(** The request, extra and contexts steps of [before_send_filter] each
    rewrite one top-level key. *)
Lemma request_step_other (event event1 : dict) (k : string) :
  k <> "request" ->
  match dict_get event "request" with
  | Some request =>
      let* request := strip_headers request in
      let* request := sanitize_query request in
      ret (dict_set event "request" request)
  | None => ret event
  end = inr event1 ->
  dict_get event1 k = dict_get event k.
Proof.
  intros Hk H. destruct (dict_get event "request") as [r|].
  - apply bind_inr in H as [r1 [_ H]]. apply bind_inr in H as [r2 [_ H]].
    injection H as <-. apply dict_get_set_other. congruence.
  - injection H as <-. reflexivity.
Qed.

Lemma contexts_step_other (event event1 : dict) (k : string) :
  k <> "contexts" ->
  match dict_get event "contexts" with
  | Some contexts =>
      let* contexts := redact_contexts contexts in
      ret (dict_set event "contexts" contexts)
  | None => ret event
  end = inr event1 ->
  dict_get event1 k = dict_get event k.
Proof.
  intros Hk H. destruct (dict_get event "contexts") as [c|].
  - apply bind_inr in H as [c1 [_ H]].
    injection H as <-. apply dict_get_set_other. congruence.
  - injection H as <-. reflexivity.
Qed.

(** C6: whenever the hook returns, the [extra] mapping of the returned event
    is the input's, with the value of every key whose lowercased form
    contains [password] or [secret] replaced by ["[REDACTED]"]; every other
    entry is unchanged, and the keys are the same, in the same order. *)
Theorem extra_fields_redacted (event hint extra event' : dict) :
  dict_get event "extra" = Some (VDict extra) ->
  before_send_filter event hint = inr (Some event') ->
  dict_get event' "extra" = Some (VDict (List.map redact_entry extra)).
Proof.
  intros Hx H. unfold before_send_filter in H.
  apply bind_inr in H as [e1 [H1 H]].
  assert (Hx1 : dict_get e1 "extra" = Some (VDict extra)).
  { rewrite (request_step_other event e1 "extra"); [exact Hx | discriminate | exact H1]. }
  apply bind_inr in H as [e2 [H2 H]].
  rewrite Hx1 in H2. rewrite redact_extra_dict in H2. simpl in H2.
  injection H2 as <-.
  apply bind_inr in H as [e3 [H3 H]]. injection H as <-.
  rewrite (contexts_step_other (dict_set e1 "extra" (VDict (List.map redact_entry extra))) e3 "extra");
    [| discriminate | exact H3].
  apply dict_get_set_same.
Qed.

Lemma extra_fields_redacted_witness :
  dict_get [("extra", VDict [("user_password", VStr "hunter2"); ("page", VInt 2)])] "extra"
    = Some (VDict [("user_password", VStr "hunter2"); ("page", VInt 2)])
  /\ before_send_filter [("extra", VDict [("user_password", VStr "hunter2"); ("page", VInt 2)])] []
     = inr (Some [("extra", VDict [("user_password", REDACTED); ("page", VInt 2)])])
  /\ dict_get [("extra", VDict [("user_password", REDACTED); ("page", VInt 2)])] "extra"
     = Some (VDict (List.map redact_entry [("user_password", VStr "hunter2"); ("page", VInt 2)])).
Proof.
  split; [reflexivity|]. split; [vm_compute; reflexivity|].
  apply (extra_fields_redacted
           [("extra", VDict [("user_password", VStr "hunter2"); ("page", VInt 2)])] []);
    vm_compute; reflexivity.
Defined.

Lemma strip_headers_ok (d : dict) :
  entry_ok d "headers" is_dict = true ->
  exists d', strip_headers (VDict d) = inr (VDict d')
             /\ dict_get d' "query_string" = dict_get d "query_string".
Proof.
  intros H. unfold entry_ok in H. unfold strip_headers. simpl.
  rewrite dict_contains_get. destruct (dict_get d "headers") as [h|] eqn:E.
  - destruct h; try discriminate. simpl. try rewrite E; simpl.
    eexists. split; [reflexivity|]. apply dict_get_set_other. discriminate.
  - exists d. split; reflexivity.
Qed.

Lemma sanitize_query_ok (d : dict) :
  entry_ok d "query_string" is_str = true ->
  exists d', sanitize_query (VDict d) = inr (VDict d').
Proof.
  intros H. unfold entry_ok in H. unfold sanitize_query. simpl.
  rewrite dict_contains_get. destruct (dict_get d "query_string") as [q|] eqn:E.
  - destruct q; try discriminate. simpl. try rewrite E; simpl.
    destruct (negb (String.eqb s "")); simpl; eexists; reflexivity.
  - exists d. reflexivity.
Qed.

Lemma redact_contexts_ok (c : Value) :
  wf_contexts c = true -> exists c', redact_contexts c = inr c'.
Proof.
  destruct c as [| | | | |d]; try discriminate. simpl. intros H.
  apply andb_prop in H as [Hdb Hst]. unfold entry_ok in Hdb, Hst.
  unfold redact_contexts. simpl. rewrite dict_contains_get.
  destruct (dict_get d "database") as [db|] eqn:Edb.
  - destruct db as [| | | | |dbd]; try discriminate. simpl. try rewrite Edb; simpl.
    destruct (dict_contains dbd "connection_string"); simpl.
    + rewrite dict_contains_get, dict_get_set_other by discriminate.
      destruct (dict_get d "stripe") as [st|] eqn:Est; simpl.
      * destruct st; try discriminate. try rewrite dict_get_set_other by discriminate.
        try rewrite Est; simpl. eexists. reflexivity.
      * eexists. reflexivity.
    + rewrite dict_contains_get. destruct (dict_get d "stripe") as [st|] eqn:Est; simpl.
      * destruct st; try discriminate. try rewrite Est; simpl. eexists. reflexivity.
      * eexists. reflexivity.
  - simpl. rewrite dict_contains_get. destruct (dict_get d "stripe") as [st|] eqn:Est; simpl.
    + destruct st; try discriminate. try rewrite Est; simpl. eexists. reflexivity.
    + eexists. reflexivity.
Qed.

Lemma extra_contexts_ok (event : dict) :
  entry_ok event "extra" is_dict = true ->
  entry_ok event "contexts" wf_contexts = true ->
  exists event',
    (let* event :=
       match dict_get event "extra" with
       | Some extra => let* extra := redact_extra extra in ret (dict_set event "extra" extra)
       | None => ret event
       end in
     let* event :=
       match dict_get event "contexts" with
       | Some contexts =>
           let* contexts := redact_contexts contexts in ret (dict_set event "contexts" contexts)
       | None => ret event
       end in
     ret (Some event)) = inr (Some event').
Proof.
  intros Hx Hc. unfold entry_ok in Hx, Hc.
  assert (Hctx : forall e, dict_get e "contexts" = dict_get event "contexts" ->
            exists e',
              (let* e0 :=
                 match dict_get e "contexts" with
                 | Some contexts =>
                     let* contexts := redact_contexts contexts in ret (dict_set e "contexts" contexts)
                 | None => ret e
                 end in ret (Some e0)) = inr (Some e')).
  { intros e He. rewrite He. destruct (dict_get event "contexts") as [c|].
    - destruct (redact_contexts_ok c Hc) as [c' Ec]. rewrite Ec. simpl. eexists. reflexivity.
    - simpl. eexists. reflexivity. }
  destruct (dict_get event "extra") as [x|] eqn:Ex.
  - destruct x as [| | | | |m]; try discriminate.
    rewrite redact_extra_dict. simpl. apply Hctx. apply dict_get_set_other. discriminate.
  - simpl. apply Hctx. reflexivity.
Qed.

(** C4 (as amended): [before_send_filter] never returns [None], so it never
    drops an event; on every event whose [request], [request.headers],
    [extra], [contexts], [contexts.database] and [contexts.stripe] entries
    are mappings where present, and whose [request.query_string] is a string
    where present, it returns the redacted event. *)
Theorem before_send_never_drops (hint : dict) :
  (forall event, before_send_filter event hint <> inr None)
  /\ (forall event, wf_event event = true ->
        exists event', before_send_filter event hint = inr (Some event')).
Proof.
  split.
  - intros event H. unfold before_send_filter in H.
    apply bind_inr in H as [e1 [_ H]]. apply bind_inr in H as [e2 [_ H]].
    apply bind_inr in H as [e3 [_ H]]. discriminate H.
  - intros event Hwf. unfold wf_event in Hwf.
    apply andb_prop in Hwf as [Hw Hc]. apply andb_prop in Hw as [Hr Hx].
    unfold before_send_filter.
    unfold entry_ok in Hr. destruct (dict_get event "request") as [r|] eqn:Er.
    + destruct r as [| | | | |rd]; try discriminate. simpl in Hr.
      apply andb_prop in Hr as [Hh Hq].
      destruct (strip_headers_ok rd Hh) as [rd1 [E1 Eq]]. rewrite E1. simpl.
      assert (Hq1 : entry_ok rd1 "query_string" is_str = true)
        by (unfold entry_ok in *; rewrite Eq; exact Hq).
      destruct (sanitize_query_ok rd1 Hq1) as [rd2 E2]. rewrite E2. simpl.
      apply extra_contexts_ok.
      * unfold entry_ok in *. rewrite dict_get_set_other by discriminate. exact Hx.
      * unfold entry_ok in *. rewrite dict_get_set_other by discriminate. exact Hc.
    + simpl. apply extra_contexts_ok; assumption.
Qed.

Lemma before_send_never_drops_witness :
  wf_event [("request", VDict [("headers", VDict [("cookie", VStr "sid=1")]);
                               ("query_string", VStr "page=2")]);
            ("contexts", VDict [("stripe", VDict [("api_key", VStr "sk_live")])])] = true
  /\ exists event',
       before_send_filter
         [("request", VDict [("headers", VDict [("cookie", VStr "sid=1")]);
                             ("query_string", VStr "page=2")]);
          ("contexts", VDict [("stripe", VDict [("api_key", VStr "sk_live")])])] []
       = inr (Some event').
Proof.
  split; [reflexivity|].
  apply (proj2 (before_send_never_drops [])). reflexivity.
Defined.

(** C4 counterexample: an event whose [extra] entry is a string makes the
    hook raise [AttributeError] ([str] has no [keys]), so it does not return
    the event. *)
Lemma before_send_raises_on_string_extra :
  ~ (exists event', before_send_filter [("extra", VStr "debug")] [] = inr (Some event')).
Proof. intros [e H]. vm_compute in H. discriminate H. Qed.

(** C1: on the specification's scenario the hook inserts ["[REDACTED]"]
    after [api_key=] and keeps the value [ABC123]. *)
Theorem query_string_value_kept :
  before_send_filter [("request", VDict [("query_string", VStr "api_key=ABC123&page=2")])] []
  = inr (Some [("request",
                VDict [("query_string", VStr "api_key=[REDACTED]ABC123&page=2")])]).
Proof. vm_compute. reflexivity. Qed.

(** C2: on the specification's scenario the header [Authorization] (capital
    A) is not removed: the hook pops the lowercase key only. *)
Theorem capitalised_authorization_kept :
  before_send_filter
    [("request", VDict [("headers", VDict [("Authorization", VStr "Bearer x");
                                           ("User-Agent", VStr "curl")])])] []
  = inr (Some [("request", VDict [("headers", VDict [("Authorization", VStr "Bearer x");
                                                     ("User-Agent", VStr "curl")])])]).
Proof. vm_compute. reflexivity. Qed.

(** C3: applying the hook to its own output inserts a second
    ["[REDACTED]"] after [token=]. *)
Theorem redaction_not_idempotent :
  before_send_filter [("request", VDict [("query_string", VStr "token=abc")])] []
    = inr (Some [("request", VDict [("query_string", VStr "token=[REDACTED]abc")])])
  /\ before_send_filter [("request", VDict [("query_string", VStr "token=[REDACTED]abc")])] []
    = inr (Some [("request", VDict [("query_string", VStr "token=[REDACTED][REDACTED]abc")])])
  /\ [("request", VDict [("query_string", VStr "token=[REDACTED][REDACTED]abc")])]
     <> [("request", VDict [("query_string", VStr "token=[REDACTED]abc")])].
Proof.
  split; [vm_compute; reflexivity|]. split; [vm_compute; reflexivity|].
  intros H. injection H as H. discriminate H.
Qed.

(** C5 (as amended): a crumb of category ["query"] is dropped; a crumb of
    category ["httplib"] whose [data] (default [{}]) is a mapping and whose
    [url] (default [""]) is a string is dropped exactly when the URL
    contains one of the denylisted substrings (case-sensitively), and kept
    unchanged otherwise; every crumb of another category is kept unchanged. *)
Theorem breadcrumb_filter_decision (crumb hint : dict) :
  (dict_get crumb "category" = Some (VStr "query") ->
   before_breadcrumb_filter crumb hint = inr None)
  /\ (forall data url,
        dict_get crumb "category" = Some (VStr "httplib") ->
        dict_get_default crumb "data" (VDict []) = VDict data ->
        dict_get_default data "url" (VStr "") = VStr url ->
        before_breadcrumb_filter crumb hint
        = if url_denylisted url then inr None else inr (Some crumb))
  /\ (value_is_str (dict_get crumb "category") "query" = false ->
      value_is_str (dict_get crumb "category") "httplib" = false ->
      before_breadcrumb_filter crumb hint = inr (Some crumb)).
Proof.
  unfold before_breadcrumb_filter. split; [|split].
  - intros H. rewrite H. reflexivity.
  - intros data url Hc Hd Hu. rewrite Hc. simpl. rewrite Hd. simpl. rewrite Hu.
    unfold url_denylisted. simpl.
    destruct (str_contains "analytics" url), (str_contains "tracking" url),
             (str_contains "segment" url), (str_contains "mixpanel" url); reflexivity.
  - intros Hq Hh. rewrite Hq, Hh. reflexivity.
Qed.

Lemma breadcrumb_filter_decision_witness :
  before_breadcrumb_filter [("category", VStr "query"); ("message", VStr "SELECT 1")] [] = inr None
  /\ before_breadcrumb_filter
       [("category", VStr "httplib"); ("data", VDict [("url", VStr "https://api.segment.io/v1")])] []
     = inr None
  /\ before_breadcrumb_filter [("category", VStr "ui.click")] []
     = inr (Some [("category", VStr "ui.click")]).
Proof.
  split; [apply (proj1 (breadcrumb_filter_decision
                          [("category", VStr "query"); ("message", VStr "SELECT 1")] []));
          reflexivity|].
  split.
  - apply (proj1 (proj2 (breadcrumb_filter_decision
      [("category", VStr "httplib"); ("data", VDict [("url", VStr "https://api.segment.io/v1")])] []))
      [("url", VStr "https://api.segment.io/v1")] "https://api.segment.io/v1");
      reflexivity.
  - apply (proj2 (proj2 (breadcrumb_filter_decision [("category", VStr "ui.click")] [])));
      reflexivity.
Defined.

(** C5 counterexample: an ["httplib"] crumb whose [data] is [None] carries
    no URL, yet the hook raises [AttributeError] ([None.get]) instead of
    keeping it. *)
Lemma breadcrumb_raises_on_none_data :
  before_breadcrumb_filter [("category", VStr "httplib"); ("data", VNone)] []
    = inl AttributeError
  /\ before_breadcrumb_filter [("category", VStr "httplib"); ("data", VNone)] []
    <> inr (Some [("category", VStr "httplib"); ("data", VNone)]).
Proof. split; [reflexivity | discriminate]. Qed.

End SentryProofs.

(* ------------------------------------------------------------------ *)
(** ** The Application Insights adapter *)

Module AppInsightsProofs.
Import Py AppInsights.

(** C7: without a connection string [init_app_insights] leaves the module
    state as it was (the three globals stay [None] from import time), and in
    a state whose three globals are [None] every tracking call and [flush]
    returns normally and makes no vendor call. *)
Theorem disabled_adapter_noop :
  (forall vendor_raises env st,
     (getenv env "APPLICATIONINSIGHTS_CONNECTION_STRING" = None
      \/ getenv env "APPLICATIONINSIGHTS_CONNECTION_STRING" = Some "") ->
     init_app_insights vendor_raises env st = (st, []))
  /\ (forall st,
        tracer st = None -> metrics_exporter st = None -> logger st = None ->
        (forall name properties measurements,
           track_event st name properties measurements = [])
        /\ (forall name value properties, track_metric st name value properties = [])
        /\ (forall error severity properties,
              track_exception st error severity properties = [])
        /\ (forall message severity properties,
              track_trace st message severity properties = [])
        /\ (forall name url duration code success properties,
              track_request st name url duration code success properties = [])
        /\ (forall name ty target duration success code properties,
              track_dependency st name ty target duration success code properties = [])
        /\ flush st = []).
Proof.
  split.
  - intros vr env st [H|H]; unfold init_app_insights; rewrite H; reflexivity.
  - intros st Ht Hm Hl.
    unfold track_event, track_metric, track_exception, track_trace, track_request,
      track_dependency, flush.
    rewrite Ht, Hm, Hl. repeat split.
Qed.

Lemma disabled_adapter_noop_witness :
  init_app_insights (fun _ => false) [("NODE_ENV", "test")] initial_state = (initial_state, [])
  /\ track_event initial_state "signup" None None = []
  /\ flush initial_state = [].
Proof.
  split; [apply (proj1 disabled_adapter_noop); left; reflexivity|].
  destruct (proj2 disabled_adapter_noop initial_state eq_refl eq_refl eq_refl)
    as [He [_ [_ [_ [_ [_ Hf]]]]]].
  split; [apply He | exact Hf].
Defined.

(** C10: [track_exception] with a severity other than ["CRITICAL"] and
    ["WARNING"] behaves exactly as with the default ["ERROR"], and with a
    logger it logs once, at error level. *)
Theorem exception_default_severity (st : State) (error : PyErr) (severity : string)
    (properties : option dict) :
  severity <> "CRITICAL" -> severity <> "WARNING" ->
  track_exception st error severity properties = track_exception st error "ERROR" properties
  /\ (forall name, logger st = Some name ->
        exists extra, track_exception st error severity properties
                      = [LoggerCall ERROR (err_message error) (Some error) extra]).
Proof.
  intros Hc Hw. unfold track_exception.
  apply String.eqb_neq in Hc, Hw. rewrite Hc, Hw.
  split.
  - destruct (logger st); reflexivity.
  - intros name Hl. rewrite Hl. eexists. reflexivity.
Qed.

Lemma exception_default_severity_witness :
  track_exception
    {| tracer := None; metrics_exporter := None; logger := Some module_name;
       logger_handlers := []; logger_level := Some INFO; next_object := 0 |}
    {| err_type := "ValueError"; err_message := "boom"; err_is_exception := true |}
    "INFO" None
  = track_exception
    {| tracer := None; metrics_exporter := None; logger := Some module_name;
       logger_handlers := []; logger_level := Some INFO; next_object := 0 |}
    {| err_type := "ValueError"; err_message := "boom"; err_is_exception := true |}
    "ERROR" None.
Proof.
  apply (exception_default_severity
    {| tracer := None; metrics_exporter := None; logger := Some module_name;
       logger_handlers := []; logger_level := Some INFO; next_object := 0 |}
    {| err_type := "ValueError"; err_message := "boom"; err_is_exception := true |}
    "INFO" None); discriminate.
Defined.

(** C8 (as amended): when the handler returns, the middleware makes one
    [track_request] call with [success = (status_code < 400)] and returns the
    same response; when it raises an [Exception], one [track_exception] call
    with that error and severity ["ERROR"], then the same error is raised
    again; when it raises a [BaseException] that is not an [Exception], no
    tracking call is made and the same error propagates. *)
Theorem middleware_emission (request : Request) (call_next : Outcome Response)
    (start_time end_time : Q) :
  match call_next with
  | Returned response =>
      exists name url duration properties,
        app_insights_middleware request call_next start_time end_time
        = (Returned response,
           [CallTrackRequest name url duration (status_code response)
              (Z.ltb (status_code response) 400) properties])
  | Raised e =>
      if err_is_exception e then
        exists properties,
          app_insights_middleware request call_next start_time end_time
          = (Raised e, [CallTrackException e "ERROR" properties])
      else app_insights_middleware request call_next start_time end_time = (Raised e, [])
  end.
Proof.
  unfold app_insights_middleware.
  destruct call_next as [response|e].
  - do 4 eexists. reflexivity.
  - destruct (err_is_exception e); [eexists|]; reflexivity.
Qed.

(** C8 counterexample: a request whose handler is cancelled
    ([asyncio.CancelledError], a [BaseException] only) fires neither
    emission path. *)
Lemma middleware_cancelled_no_emission :
  app_insights_middleware
    {| req_method := "GET"; req_url_path := "/api/users"; req_url := "http://localhost/api/users" |}
    (Raised {| err_type := "CancelledError"; err_message := ""; err_is_exception := false |})
    0 1
  = (Raised {| err_type := "CancelledError"; err_message := ""; err_is_exception := false |}, [])
  /\ List.length (snd (app_insights_middleware
    {| req_method := "GET"; req_url_path := "/api/users"; req_url := "http://localhost/api/users" |}
    (Raised {| err_type := "CancelledError"; err_message := ""; err_is_exception := false |})
    0 1)) <> 1%nat.
Proof. split; [reflexivity | discriminate]. Qed.

(** C9 (as amended): [init_app_insights] has no double-initialisation
    guard.  Without a connection string it leaves every state unchanged;
    with one, when the vendor constructors succeed, every call (a second
    one included) binds a new tracer and a new metrics exporter and attaches
    one more Azure handler to the process-wide module logger. *)
Theorem init_no_double_init_guard :
  (forall vendor_raises env st,
     (getenv env "APPLICATIONINSIGHTS_CONNECTION_STRING" = None
      \/ getenv env "APPLICATIONINSIGHTS_CONNECTION_STRING" = Some "") ->
     fst (init_app_insights vendor_raises env st) = st)
  /\ (forall vendor_raises env st connection_string,
        getenv env "APPLICATIONINSIGHTS_CONNECTION_STRING" = Some connection_string ->
        connection_string <> "" ->
        (forall step, vendor_raises step = false) ->
        let st' := fst (init_app_insights vendor_raises env st) in
        logger_handlers st'
          = app (logger_handlers st)
                [{| handler_id := S (S (next_object st));
                    handler_connection := connection_string |}]
        /\ logger st' = Some module_name
        /\ option_map tracer_id (tracer st') = Some (next_object st)
        /\ option_map mexp_id (metrics_exporter st') = Some (S (next_object st))
        /\ next_object st' = S (S (S (next_object st)))).
Proof.
  split.
  - intros vr env st [H|H]; unfold init_app_insights; rewrite H; reflexivity.
  - intros vr env st conn Hc Hne Hvr. unfold init_app_insights. rewrite Hc.
    destruct conn as [|ch rest]; [congruence|].
    rewrite !Hvr. simpl. repeat split.
Qed.

Lemma init_no_double_init_guard_witness :
  logger_handlers
    (fst (init_app_insights (fun _ => false)
            [("APPLICATIONINSIGHTS_CONNECTION_STRING", "InstrumentationKey=k")]
            (fst (init_app_insights (fun _ => false)
                    [("APPLICATIONINSIGHTS_CONNECTION_STRING", "InstrumentationKey=k")]
                    initial_state))))
  = [{| handler_id := 2; handler_connection := "InstrumentationKey=k" |};
     {| handler_id := 5; handler_connection := "InstrumentationKey=k" |}].
Proof.
  apply (proj2 init_no_double_init_guard (fun _ => false)
           [("APPLICATIONINSIGHTS_CONNECTION_STRING", "InstrumentationKey=k")]
           (fst (init_app_insights (fun _ => false)
                   [("APPLICATIONINSIGHTS_CONNECTION_STRING", "InstrumentationKey=k")]
                   initial_state))
           "InstrumentationKey=k");
    [reflexivity | discriminate | reflexivity].
Defined.

(** C9 counterexample: calling [init_app_insights] twice with the same
    environment attaches a second Azure log handler, so the state after the
    second call differs from the state after the first, and the call is not
    rejected. *)
Lemma second_init_attaches_second_handler :
  let env := [("APPLICATIONINSIGHTS_CONNECTION_STRING", "InstrumentationKey=k")] in
  let st1 := fst (init_app_insights (fun _ => false) env initial_state) in
  let st2 := fst (init_app_insights (fun _ => false) env st1) in
  List.length (logger_handlers st1) = 1%nat
  /\ List.length (logger_handlers st2) = 2%nat
  /\ st2 <> st1.
Proof.
  cbv zeta. split; [reflexivity|]. split; [reflexivity|].
  intros H. apply (f_equal (fun s => List.length (logger_handlers s))) in H.
  vm_compute in H. discriminate H.
Qed.

End AppInsightsProofs.

(* ------------------------------------------------------------------ *)
(** ** Further properties of the redaction hooks *)

Module SentryExtraProofs.
Import Py Sentry DictFacts SentryProofs.

Lemma replace_aux_absent (old new s : string) :
  str_contains old s = false -> replace_aux old new 0 s = s.
Proof.
  induction s as [|c s IH]; simpl; intros H; [reflexivity|].
  apply orb_false_iff in H as [Hp Hs]. rewrite Hp. f_equal. apply IH. exact Hs.
Qed.

Lemma extra_step_other (event event1 : dict) (k : string) :
  k <> "extra" ->
  match dict_get event "extra" with
  | Some extra => let* extra := redact_extra extra in ret (dict_set event "extra" extra)
  | None => ret event
  end = inr event1 ->
  dict_get event1 k = dict_get event k.
Proof.
  intros Hk H. destruct (dict_get event "extra") as [x|].
  - apply bind_inr in H as [x1 [_ H]].
    injection H as <-. apply dict_get_set_other. congruence.
  - injection H as <-. reflexivity.
Qed.

Lemma map_fst_set (d : dict) (k : string) (v v0 : Value) :
  dict_get d k = Some v0 -> List.map fst (dict_set d k v) = List.map fst d.
Proof.
  intros H. unfold dict_set. rewrite dict_contains_get, H.
  rewrite List.map_map. apply List.map_ext. intros [k' x]. simpl.
  destruct (String.eqb k' k) eqn:E; [apply String.eqb_eq in E; subst; reflexivity | reflexivity].
Qed.

(** What [strip_headers] returns on a dict request. *)
Lemma strip_headers_result (rd : dict) (r1 : Value) :
  strip_headers (VDict rd) = inr r1 ->
  exists rd1, r1 = VDict rd1
    /\ dict_get rd1 "query_string" = dict_get rd "query_string"
    /\ (forall hd, dict_get rd "headers" = Some (VDict hd) ->
          dict_get rd1 "headers"
          = Some (VDict (dict_pop (dict_pop (dict_pop hd "authorization") "cookie") "x-api-key"))).
Proof.
  unfold strip_headers. simpl. rewrite dict_contains_get.
  destruct (dict_get rd "headers") as [h|] eqn:E; simpl; intros H.
  - destruct h; try discriminate H. simpl in H. injection H as <-.
    eexists. split; [reflexivity|]. split.
    + apply dict_get_set_other. discriminate.
    + intros hd Hhd. injection Hhd as ->. apply dict_get_set_same.
  - injection H as <-. exists rd. split; [reflexivity|]. split; [reflexivity|].
    intros hd Hhd. discriminate Hhd.
Qed.

(** What [sanitize_query] returns on a dict request. *)
Lemma sanitize_query_result (rd : dict) (r2 : Value) :
  sanitize_query (VDict rd) = inr r2 ->
  exists rd2, r2 = VDict rd2
    /\ dict_get rd2 "headers" = dict_get rd "headers"
    /\ (forall s, dict_get rd "query_string" = Some (VStr s) ->
          dict_get rd2 "query_string"
          = Some (VStr (if String.eqb s "" then s
                        else str_replace "api_key=" "api_key=[REDACTED]"
                               (str_replace "token=" "token=[REDACTED]" s)))).
Proof.
  unfold sanitize_query. simpl. rewrite dict_contains_get.
  destruct (dict_get rd "query_string") as [q|] eqn:E; simpl; intros H.
  - destruct (truthy q) eqn:Tq.
    + destruct q; try discriminate H. simpl in H. injection H as <-.
      eexists. split; [reflexivity|]. split.
      * apply dict_get_set_other. discriminate.
      * intros s' Hs. injection Hs as ->. simpl in Tq.
        rewrite dict_get_set_same. destruct (String.eqb s' ""); [discriminate Tq | reflexivity].
    + injection H as <-. exists rd. split; [reflexivity|]. split; [reflexivity|].
      intros s Hs. rewrite E. injection Hs as ->. simpl in Tq.
      destruct (String.eqb s ""); [reflexivity | discriminate Tq].
  - injection H as <-. exists rd. split; [reflexivity|]. split; [reflexivity|].
    intros s Hs. discriminate Hs.
Qed.

(** The request entry of a returned event is the result of the two request
    steps. *)
Lemma request_of_result (event hint event' rd : dict) :
  dict_get event "request" = Some (VDict rd) ->
  before_send_filter event hint = inr (Some event') ->
  exists r1 r2, strip_headers (VDict rd) = inr r1 /\ sanitize_query r1 = inr r2
                /\ dict_get event' "request" = Some r2.
Proof.
  intros Hr H. unfold before_send_filter in H.
  apply bind_inr in H as [e1 [H1 H]].
  apply bind_inr in H as [e2 [H2 H]].
  apply bind_inr in H as [e3 [H3 H]]. injection H as <-.
  pose proof H1 as H1'. rewrite Hr in H1'.
  apply bind_inr in H1' as [r1 [Hs H1']]. apply bind_inr in H1' as [r2 [Hq H1']].
  injection H1' as <-.
  exists r1, r2. split; [exact Hs|]. split; [exact Hq|].
  rewrite (contexts_step_other e2 e3 "request"); [| discriminate | exact H3].
  rewrite (extra_step_other (dict_set event "request" r2) e2 "request"); [| discriminate | exact H2].
  apply dict_get_set_same.
Qed.

(** Extra: a query string that contains neither [token=] nor [api_key=]
    (the empty one included) comes out of the hook unchanged. *)
Theorem query_without_keys_unchanged (event hint event' rd : dict) (s : string) :
  dict_get event "request" = Some (VDict rd) ->
  dict_get rd "query_string" = Some (VStr s) ->
  str_contains "token=" s = false -> str_contains "api_key=" s = false ->
  before_send_filter event hint = inr (Some event') ->
  exists rd', dict_get event' "request" = Some (VDict rd')
              /\ dict_get rd' "query_string" = Some (VStr s).
Proof.
  intros Hr Hq Ht Ha H.
  destruct (request_of_result event hint event' rd Hr H) as [r1 [r2 [Hs [Hz Hget]]]].
  apply strip_headers_result in Hs as [rd1 [-> [Hq1 _]]].
  apply sanitize_query_result in Hz as [rd2 [-> [_ Hq2]]].
  exists rd2. split; [exact Hget|]. rewrite (Hq2 s) by (rewrite Hq1; exact Hq).
  destruct (String.eqb s ""); [reflexivity|].
  unfold str_replace. rewrite (replace_aux_absent "token=" _ s Ht).
  rewrite (replace_aux_absent "api_key=" _ s Ha). reflexivity.
Qed.

Lemma query_without_keys_unchanged_witness :
  exists rd', dict_get [("request", VDict [("query_string", VStr "page=2&sort=asc")])] "request"
                = Some (VDict rd')
              /\ dict_get rd' "query_string" = Some (VStr "page=2&sort=asc").
Proof.
  apply (query_without_keys_unchanged [("request", VDict [("query_string", VStr "page=2&sort=asc")])] []
           [("request", VDict [("query_string", VStr "page=2&sort=asc")])]
           [("query_string", VStr "page=2&sort=asc")] "page=2&sort=asc");
    vm_compute; reflexivity.
Defined.

Lemma three_pops_filter (hd : dict) :
  dict_pop (dict_pop (dict_pop hd "authorization") "cookie") "x-api-key"
  = filter (fun kv => negb (existsb (String.eqb (fst kv)) ["authorization"; "cookie"; "x-api-key"])) hd.
Proof.
  unfold dict_pop. induction hd as [|[k v] hd IH]; [reflexivity|]. simpl.
  repeat (simpl; match goal with
                 | |- context [String.eqb k ?x] => destruct (String.eqb k x)
                 end); simpl; rewrite ?IH; reflexivity.
Qed.

(** Extra: the headers mapping of a returned event is the input's with the
    entries whose key is exactly [authorization], [cookie] or [x-api-key]
    removed; every other header is kept, in order. *)
Theorem headers_exact_removal (event hint event' rd hd : dict) :
  dict_get event "request" = Some (VDict rd) ->
  dict_get rd "headers" = Some (VDict hd) ->
  before_send_filter event hint = inr (Some event') ->
  exists rd', dict_get event' "request" = Some (VDict rd')
    /\ dict_get rd' "headers"
       = Some (VDict (filter (fun kv => negb (existsb (String.eqb (fst kv))
                                            ["authorization"; "cookie"; "x-api-key"])) hd)).
Proof.
  intros Hr Hh H.
  destruct (request_of_result event hint event' rd Hr H) as [r1 [r2 [Hs [Hz Hget]]]].
  apply strip_headers_result in Hs as [rd1 [-> [_ Hh1]]].
  apply sanitize_query_result in Hz as [rd2 [-> [Hh2 _]]].
  exists rd2. split; [exact Hget|]. rewrite Hh2, (Hh1 hd Hh), three_pops_filter. reflexivity.
Qed.

Lemma headers_exact_removal_witness :
  exists rd', dict_get [("request", VDict [("headers", VDict [("accept", VStr "*/*")])])]
                "request" = Some (VDict rd')
    /\ dict_get rd' "headers"
       = Some (VDict (filter (fun kv => negb (existsb (String.eqb (fst kv))
                                            ["authorization"; "cookie"; "x-api-key"]))
                             [("cookie", VStr "sid=1"); ("accept", VStr "*/*")])).
Proof.
  apply (headers_exact_removal
           [("request", VDict [("headers", VDict [("cookie", VStr "sid=1"); ("accept", VStr "*/*")])])] []
           [("request", VDict [("headers", VDict [("accept", VStr "*/*")])])]
           [("headers", VDict [("cookie", VStr "sid=1"); ("accept", VStr "*/*")])]
           [("cookie", VStr "sid=1"); ("accept", VStr "*/*")]);
    vm_compute; reflexivity.
Defined.

Lemma redact_contexts_result (cd : dict) (c' : Value) :
  redact_contexts (VDict cd) = inr c' ->
  exists cd', c' = VDict cd'
    /\ (forall db, dict_get cd "database" = Some (VDict db) ->
          dict_contains db "connection_string" = true ->
          dict_get cd' "database" = Some (VDict (dict_set db "connection_string" REDACTED)))
    /\ (forall sd, dict_get cd "stripe" = Some (VDict sd) ->
          dict_get cd' "stripe" = Some (VDict (dict_pop (dict_pop sd "secret_key") "api_key"))).
Proof.
  unfold redact_contexts. simpl. intros H.
  apply bind_inr in H as [cd1 [H1 H]].
  assert (Hstep : exists cd1d, cd1 = VDict cd1d
    /\ dict_get cd1d "stripe" = dict_get cd "stripe"
    /\ (forall db, dict_get cd "database" = Some (VDict db) ->
          dict_contains db "connection_string" = true ->
          dict_get cd1d "database" = Some (VDict (dict_set db "connection_string" REDACTED)))).
  { rewrite dict_contains_get in H1.
    destruct (dict_get cd "database") as [db|] eqn:Edb; simpl in H1.
    - destruct db as [| | | |s|dbd]; simpl in H1; try discriminate H1.
      + destruct (str_contains "connection_string" s); simpl in H1; [discriminate H1|].
        injection H1 as <-. exists cd. split; [reflexivity|]. split; [reflexivity|].
        intros db Hdb. discriminate Hdb.
      + destruct (dict_contains dbd "connection_string") eqn:Ec; simpl in H1;
          injection H1 as <-; eexists; (split; [reflexivity|]).
        * split; [apply dict_get_set_other; discriminate|].
          intros db Hdb _. injection Hdb as <-. apply dict_get_set_same.
        * split; [reflexivity|]. intros db Hdb Hc. injection Hdb as <-. congruence.
    - injection H1 as <-. exists cd. split; [reflexivity|]. split; [reflexivity|].
      intros db Hdb. discriminate Hdb. }
  destruct Hstep as [cd1d [-> [Hst Hdb]]].
  simpl in H. rewrite dict_contains_get in H.
  destruct (dict_get cd1d "stripe") as [st|] eqn:Est; simpl in H.
  - destruct st; simpl in H; try discriminate H. injection H as <-.
    eexists. split; [reflexivity|]. split.
    + intros db Hd Hc. rewrite dict_get_set_other by discriminate. apply Hdb; assumption.
    + intros sd Hsd. rewrite Hsd in Hst. injection Hst as Hd. subst. apply dict_get_set_same.
  - injection H as <-. exists cd1d. split; [reflexivity|]. split; [exact Hdb|].
    intros sd Hsd. congruence.
Qed.

(** Extra: in a returned event, a [contexts.database] mapping that has a
    [connection_string] entry has it set to ["[REDACTED]"] (its other
    entries unchanged), and a [contexts.stripe] mapping loses its
    [secret_key] and [api_key] entries and keeps every other one. *)
Theorem contexts_redacted (event hint event' cd : dict) :
  dict_get event "contexts" = Some (VDict cd) ->
  before_send_filter event hint = inr (Some event') ->
  exists cd', dict_get event' "contexts" = Some (VDict cd')
    /\ (forall db, dict_get cd "database" = Some (VDict db) ->
          dict_contains db "connection_string" = true ->
          exists db', dict_get cd' "database" = Some (VDict db')
            /\ dict_get db' "connection_string" = Some REDACTED
            /\ (forall k, k <> "connection_string" -> dict_get db' k = dict_get db k))
    /\ (forall sd, dict_get cd "stripe" = Some (VDict sd) ->
          dict_get cd' "stripe"
          = Some (VDict (filter (fun kv => negb (existsb (String.eqb (fst kv))
                                                  ["secret_key"; "api_key"])) sd))).
Proof.
  intros Hc H. unfold before_send_filter in H.
  apply bind_inr in H as [e1 [H1 H]].
  apply bind_inr in H as [e2 [H2 H]].
  apply bind_inr in H as [e3 [H3 H]]. injection H as <-.
  assert (Hc2 : dict_get e2 "contexts" = Some (VDict cd)).
  { rewrite (extra_step_other e1 e2 "contexts"); [| discriminate | exact H2].
    rewrite (request_step_other event e1 "contexts"); [exact Hc | discriminate | exact H1]. }
  rewrite Hc2 in H3. apply bind_inr in H3 as [c' [Hr H3]]. injection H3 as <-.
  apply redact_contexts_result in Hr as [cd' [-> [Hdb Hsd]]].
  exists cd'. split; [apply dict_get_set_same|]. split.
  - intros db Hd Hcs. eexists. split; [exact (Hdb db Hd Hcs)|]. split.
    + apply dict_get_set_same.
    + intros k Hk. apply dict_get_set_other. congruence.
  - intros sd Hs. rewrite (Hsd sd Hs). unfold dict_pop. f_equal. f_equal.
    clear Hs. induction sd as [|[k v] sd IH]; [reflexivity|].
    repeat (simpl; match goal with
                   | |- context [String.eqb k ?x] => destruct (String.eqb k x)
                   end); simpl; rewrite ?IH; reflexivity.
Qed.

Lemma contexts_redacted_witness :
  exists cd', dict_get [("contexts", VDict [("database", VDict [("connection_string", REDACTED)]);
                                           ("stripe", VDict [("account", VStr "acct_1")])])]
                "contexts" = Some (VDict cd')
    /\ (forall db, dict_get [("database", VDict [("connection_string", VStr "postgres://u:p@h/db")]);
                             ("stripe", VDict [("api_key", VStr "sk_live"); ("account", VStr "acct_1")])]
                      "database" = Some (VDict db) ->
          dict_contains db "connection_string" = true ->
          exists db', dict_get cd' "database" = Some (VDict db')
            /\ dict_get db' "connection_string" = Some REDACTED
            /\ (forall k, k <> "connection_string" -> dict_get db' k = dict_get db k))
    /\ (forall sd, dict_get [("database", VDict [("connection_string", VStr "postgres://u:p@h/db")]);
                             ("stripe", VDict [("api_key", VStr "sk_live"); ("account", VStr "acct_1")])]
                      "stripe" = Some (VDict sd) ->
          dict_get cd' "stripe"
          = Some (VDict (filter (fun kv => negb (existsb (String.eqb (fst kv))
                                                  ["secret_key"; "api_key"])) sd))).
Proof.
  apply (contexts_redacted
    [("contexts", VDict [("database", VDict [("connection_string", VStr "postgres://u:p@h/db")]);
                         ("stripe", VDict [("api_key", VStr "sk_live"); ("account", VStr "acct_1")])])]
    []
    [("contexts", VDict [("database", VDict [("connection_string", REDACTED)]);
                         ("stripe", VDict [("account", VStr "acct_1")])])]);
    vm_compute; reflexivity.
Defined.

(** Extra: the hook never adds or removes a top-level key of the event and
    leaves the value of every key other than [request], [extra] and
    [contexts] unchanged. *)
Theorem top_level_keys_kept (event hint event' : dict) :
  before_send_filter event hint = inr (Some event') ->
  List.map fst event' = List.map fst event
  /\ (forall k, k <> "request" -> k <> "extra" -> k <> "contexts" ->
        dict_get event' k = dict_get event k).
Proof.
  intros H. unfold before_send_filter in H.
  apply bind_inr in H as [e1 [H1 H]].
  apply bind_inr in H as [e2 [H2 H]].
  apply bind_inr in H as [e3 [H3 H]]. injection H as <-.
  split.
  - assert (K1 : List.map fst e1 = List.map fst event).
    { destruct (dict_get event "request") as [r|] eqn:E.
      - apply bind_inr in H1 as [r1 [_ H1]]. apply bind_inr in H1 as [r2 [_ H1]].
        injection H1 as <-. exact (map_fst_set _ _ _ _ E).
      - injection H1 as <-. reflexivity. }
    assert (K2 : List.map fst e2 = List.map fst e1).
    { destruct (dict_get e1 "extra") as [x|] eqn:E.
      - apply bind_inr in H2 as [x1 [_ H2]].
        injection H2 as <-. exact (map_fst_set _ _ _ _ E).
      - injection H2 as <-. reflexivity. }
    destruct (dict_get e2 "contexts") as [c|] eqn:E.
    + apply bind_inr in H3 as [c1 [_ H3]]. injection H3 as <-.
      rewrite (map_fst_set _ _ _ _ E). congruence.
    + injection H3 as <-. congruence.
  - intros k Hr Hx Hc.
    rewrite (contexts_step_other e2 e3 k Hc H3).
    rewrite (extra_step_other e1 e2 k Hx H2).
    exact (request_step_other event e1 k Hr H1).
Qed.

Lemma top_level_keys_kept_witness :
  List.map fst [("release", VStr "1.0"); ("extra", VDict [("db_password", REDACTED)])]
  = List.map fst [("release", VStr "1.0"); ("extra", VDict [("db_password", VStr "pw")])]
  /\ (forall k, k <> "request" -> k <> "extra" -> k <> "contexts" ->
        dict_get [("release", VStr "1.0"); ("extra", VDict [("db_password", REDACTED)])] k
        = dict_get [("release", VStr "1.0"); ("extra", VDict [("db_password", VStr "pw")])] k).
Proof.
  apply (top_level_keys_kept [("release", VStr "1.0"); ("extra", VDict [("db_password", VStr "pw")])] []).
  vm_compute. reflexivity.
Defined.

(** Extra: the breadcrumb hook never modifies a crumb; when it keeps one it
    returns it as it came. *)
Theorem breadcrumb_kept_unchanged (crumb hint crumb' : dict) :
  before_breadcrumb_filter crumb hint = inr (Some crumb') -> crumb' = crumb.
Proof.
  unfold before_breadcrumb_filter. intros H.
  destruct (value_is_str (dict_get crumb "category") "query"); [discriminate H|].
  destruct (value_is_str (dict_get crumb "category") "httplib").
  - apply bind_inr in H as [url [_ H]]. apply bind_inr in H as [hit [_ H]].
    destruct hit; [discriminate H | injection H as <-; reflexivity].
  - injection H as <-. reflexivity.
Qed.

Lemma breadcrumb_kept_unchanged_witness :
  before_breadcrumb_filter
    [("category", VStr "httplib"); ("data", VDict [("url", VStr "https://api.stripe.com/v1")])] []
  = inr (Some [("category", VStr "httplib"); ("data", VDict [("url", VStr "https://api.stripe.com/v1")])])
  /\ [("category", VStr "httplib"); ("data", VDict [("url", VStr "https://api.stripe.com/v1")])]
     = [("category", VStr "httplib"); ("data", VDict [("url", VStr "https://api.stripe.com/v1")])].
Proof.
  split; [vm_compute; reflexivity|].
  apply (breadcrumb_kept_unchanged
    [("category", VStr "httplib"); ("data", VDict [("url", VStr "https://api.stripe.com/v1")])] []).
  vm_compute. reflexivity.
Defined.

End SentryExtraProofs.

(* ------------------------------------------------------------------ *)
(** ** A second pass of the event hook *)

Module SentryIdempotenceProofs.
Import Py Sentry DictFacts SentryProofs SentryExtraProofs RedactionInvariants.

Lemma in_contains (d : dict) (k : string) (v : Value) :
  In (k, v) d -> dict_contains d k = true.
Proof.
  intros H. unfold dict_contains. apply existsb_exists. exists (k, v).
  split; [exact H | apply String.eqb_refl].
Qed.

Lemma pinned_set (d : dict) (k : string) (v : Value) : pinned (dict_set d k v) k v.
Proof.
  split.
  - rewrite dict_contains_get, dict_get_set_same. reflexivity.
  - intros v' H. unfold dict_set in H. destruct (dict_contains d k) eqn:Ec.
    + apply in_map_iff in H as [[k0 v0] [Heq _]]. simpl in Heq.
      destruct (String.eqb k0 k) eqn:E.
      * injection Heq; intros; subst; reflexivity.
      * injection Heq; intros; subst. rewrite String.eqb_refl in E. discriminate E.
    + apply in_app_or in H as [H|H].
      * apply in_contains in H. congruence.
      * destruct H as [H|[]]. injection H; intros; subst; reflexivity.
Qed.

Lemma pinned_set_other (d : dict) (k k2 : string) (v v2 : Value) :
  k2 <> k -> pinned d k v -> pinned (dict_set d k2 v2) k v.
Proof.
  intros Hne [Hc Hin]. split.
  - rewrite dict_contains_get, dict_get_set_other by exact Hne.
    rewrite <- dict_contains_get. exact Hc.
  - intros v' H. unfold dict_set in H. destruct (dict_contains d k2).
    + apply in_map_iff in H as [[k0 v0] [Heq Hk0]]. simpl in Heq.
      destruct (String.eqb k0 k2) eqn:E.
      * injection Heq; intros; subst. contradiction Hne. reflexivity.
      * injection Heq; intros; subst. apply Hin. exact Hk0.
    + apply in_app_or in H as [H|H].
      * apply Hin. exact H.
      * destruct H as [H|[]]. injection H; intros; subst. contradiction Hne. reflexivity.
Qed.

Lemma pinned_get (d : dict) (k : string) (v : Value) :
  pinned d k v -> dict_get d k = Some v.
Proof.
  intros [Hc Hin]. induction d as [|[k0 v0] d IH]; [discriminate Hc|].
  simpl. destruct (String.eqb k0 k) eqn:E.
  - apply String.eqb_eq in E. subst. f_equal. apply Hin. left. reflexivity.
  - apply IH.
    + unfold dict_contains in Hc |- *. simpl in Hc. rewrite E in Hc. exact Hc.
    + intros v' H. apply Hin. right. exact H.
Qed.

Lemma pinned_set_noop (d : dict) (k : string) (v : Value) :
  pinned d k v -> dict_set d k v = d.
Proof.
  intros [Hc Hin]. unfold dict_set. rewrite Hc.
  transitivity (List.map (fun kv => kv) d); [|apply List.map_id].
  apply List.map_ext_in. intros [k0 v0] H. simpl.
  destruct (String.eqb k0 k) eqn:E; [|reflexivity].
  apply String.eqb_eq in E. subst. rewrite (Hin v0 H). reflexivity.
Qed.

Lemma filter_idem {A} (f : A -> bool) (l : list A) : filter f (filter f l) = filter f l.
Proof.
  induction l as [|a l IH]; [reflexivity|]. simpl.
  destruct (f a) eqn:E; simpl; try rewrite E; rewrite IH; reflexivity.
Qed.

Lemma three_pops_idem (hd : dict) :
  dict_pop (dict_pop (dict_pop
    (dict_pop (dict_pop (dict_pop hd "authorization") "cookie") "x-api-key")
    "authorization") "cookie") "x-api-key"
  = dict_pop (dict_pop (dict_pop hd "authorization") "cookie") "x-api-key".
Proof. rewrite !three_pops_filter. apply filter_idem. Qed.

Lemma two_pops_filter (sd : dict) :
  dict_pop (dict_pop sd "secret_key") "api_key"
  = filter (fun kv => negb (existsb (String.eqb (fst kv)) ["secret_key"; "api_key"])) sd.
Proof.
  unfold dict_pop. induction sd as [|[k v] sd IH]; [reflexivity|]. simpl.
  repeat (simpl; match goal with
                 | |- context [String.eqb k ?x] => destruct (String.eqb k x)
                 end); simpl; rewrite ?IH; reflexivity.
Qed.

Lemma two_pops_idem (sd : dict) :
  dict_pop (dict_pop (dict_pop (dict_pop sd "secret_key") "api_key") "secret_key") "api_key"
  = dict_pop (dict_pop sd "secret_key") "api_key".
Proof. rewrite !two_pops_filter. apply filter_idem. Qed.

Lemma redact_entry_idem (kv : string * Value) : redact_entry (redact_entry kv) = redact_entry kv.
Proof.
  destruct kv as [k v]. unfold redact_entry. simpl.
  destruct (sensitive_key k) eqn:E; simpl; rewrite ?E; reflexivity.
Qed.

Lemma bind_inr_eq {A B} (a : A) (k : A -> py B) : bind (inr a) k = k a.
Proof. reflexivity. Qed.

(** First pass, request. *)
Lemma headers_done_set_other (rd : dict) (k : string) (v : Value) :
  k <> "headers" -> headers_done rd -> headers_done (dict_set rd k v).
Proof.
  intros Hk [H|[hd H]]; [left | right; exists hd].
  - rewrite dict_get_set_other by exact Hk. exact H.
  - apply pinned_set_other; [exact Hk | exact H].
Qed.

Lemma strip_headers_done (rd : dict) :
  entry_ok rd "headers" is_dict = true ->
  exists rd1, strip_headers (VDict rd) = inr (VDict rd1)
    /\ headers_done rd1 /\ dict_get rd1 "query_string" = dict_get rd "query_string".
Proof.
  intros H. unfold entry_ok in H. unfold strip_headers. simpl. rewrite dict_contains_get.
  destruct (dict_get rd "headers") as [h|] eqn:E.
  - destruct h as [| | | | |hd]; try discriminate H. simpl. try rewrite E; simpl.
    eexists. split; [reflexivity|]. split.
    + right. exists hd. apply pinned_set.
    + apply dict_get_set_other. discriminate.
  - exists rd. split; [reflexivity|]. split; [left; exact E | reflexivity].
Qed.

Lemma sanitize_query_done (rd : dict) :
  (forall q, dict_get rd "query_string" = Some q ->
     exists s, q = VStr s /\ no_key_in_query s = true) ->
  headers_done rd ->
  exists rd2, sanitize_query (VDict rd) = inr (VDict rd2) /\ headers_done rd2 /\ query_done rd2.
Proof.
  intros Hq Hh. unfold sanitize_query. simpl. rewrite dict_contains_get.
  destruct (dict_get rd "query_string") as [q|] eqn:E.
  - destruct (Hq q eq_refl) as [s [-> Hs]]. simpl. try rewrite E; simpl.
    pose proof Hs as Hs'. unfold no_key_in_query in Hs'.
    apply andb_prop in Hs' as [Ht Ha]. apply negb_true_iff in Ht, Ha.
    destruct (negb (String.eqb s "")) eqn:T; simpl.
    + unfold str_replace.
      rewrite (replace_aux_absent "token=" _ s Ht), (replace_aux_absent "api_key=" _ s Ha).
      eexists. split; [reflexivity|]. split.
      * apply headers_done_set_other; [discriminate | exact Hh].
      * unfold query_done. rewrite dict_get_set_same. right.
        exists s. split; [reflexivity|]. split; [exact Hs | apply pinned_set].
    + exists rd. split; [reflexivity|]. split; [exact Hh|].
      unfold query_done. rewrite E. left. exact T.
  - exists rd. split; [reflexivity|]. split; [exact Hh|].
    unfold query_done. rewrite E. exact I.
Qed.

(** First pass, contexts. *)
Lemma database_done_set_other (cd : dict) (k : string) (v : Value) :
  k <> "database" -> database_done cd -> database_done (dict_set cd k v).
Proof.
  unfold database_done. intros Hk H. rewrite dict_get_set_other by exact Hk.
  destruct (dict_get cd "database") as [[| | | | |db]|]; try exact H.
  destruct H as [H|[P1 P2]]; [left; exact H | right; split; [|exact P2]].
  apply pinned_set_other; [exact Hk | exact P1].
Qed.

Lemma redact_contexts_done (cd : dict) :
  wf_contexts (VDict cd) = true ->
  exists cd', redact_contexts (VDict cd) = inr (VDict cd')
              /\ database_done cd' /\ stripe_done cd'.
Proof.
  simpl. intros H. apply andb_prop in H as [Hdb Hst]. unfold entry_ok in Hdb, Hst.
  assert (Hstripe : forall cd1, database_done cd1 ->
            dict_get cd1 "stripe" = dict_get cd "stripe" ->
            exists cd', (let* has_stripe := py_in "stripe" (VDict cd1) in
                         if has_stripe then
                           let* stripe := py_getitem (VDict cd1) "stripe" in
                           let* stripe := py_pop stripe "secret_key" in
                           let* stripe := py_pop stripe "api_key" in
                           py_setitem (VDict cd1) "stripe" stripe
                         else ret (VDict cd1)) = inr (VDict cd')
                        /\ database_done cd' /\ stripe_done cd').
  { intros cd1 D1 S1. simpl. rewrite dict_contains_get, S1.
    destruct (dict_get cd "stripe") as [st|] eqn:Est.
    - destruct st as [| | | | |sd]; try discriminate Hst. simpl. try rewrite S1; simpl.
      eexists. split; [reflexivity|]. split.
      + apply database_done_set_other; [discriminate | exact D1].
      + right. exists sd. apply pinned_set.
    - eexists. split; [reflexivity|]. split; [exact D1|]. left. exact S1. }
  unfold redact_contexts. simpl. rewrite dict_contains_get.
  destruct (dict_get cd "database") as [db|] eqn:Edb.
  - destruct db as [| | | | |dbd]; try discriminate Hdb. simpl. try rewrite Edb; simpl.
    destruct (dict_contains dbd "connection_string") eqn:Ec; simpl.
    + apply Hstripe.
      * unfold database_done. rewrite dict_get_set_same. right. split; apply pinned_set.
      * apply dict_get_set_other. discriminate.
    + apply Hstripe; [|reflexivity]. unfold database_done. rewrite Edb. left. exact Ec.
  - simpl. apply Hstripe; [|reflexivity]. unfold database_done. rewrite Edb. exact I.
Qed.

Lemma extra_step_pinned (e1 e2 : dict) (k : string) (v : Value) :
  k <> "extra" ->
  match dict_get e1 "extra" with
  | Some extra => let* extra := redact_extra extra in ret (dict_set e1 "extra" extra)
  | None => ret e1
  end = inr e2 ->
  pinned e1 k v -> pinned e2 k v.
Proof.
  intros Hk H P. destruct (dict_get e1 "extra") as [x|].
  - apply bind_inr in H as [x1 [_ H]]. injection H as <-.
    apply pinned_set_other; [intros E; apply Hk; symmetry; exact E | exact P].
  - injection H as <-. exact P.
Qed.

Lemma contexts_step_pinned (e2 e3 : dict) (k : string) (v : Value) :
  k <> "contexts" ->
  match dict_get e2 "contexts" with
  | Some contexts => let* contexts := redact_contexts contexts in ret (dict_set e2 "contexts" contexts)
  | None => ret e2
  end = inr e3 ->
  pinned e2 k v -> pinned e3 k v.
Proof.
  intros Hk H P. destruct (dict_get e2 "contexts") as [c|].
  - apply bind_inr in H as [c1 [_ H]]. injection H as <-.
    apply pinned_set_other; [intros E; apply Hk; symmetry; exact E | exact P].
  - injection H as <-. exact P.
Qed.

(** What one pass of the hook leaves behind. *)
Lemma first_pass_done (event hint event' : dict) :
  wf_event event = true ->
  (forall rd s, dict_get event "request" = Some (VDict rd) ->
     dict_get rd "query_string" = Some (VStr s) -> no_key_in_query s = true) ->
  before_send_filter event hint = inr (Some event') -> event_done event'.
Proof.
  intros Hwf Hq H. unfold wf_event in Hwf.
  apply andb_prop in Hwf as [Hw Hc]. apply andb_prop in Hw as [Hr Hx].
  unfold entry_ok in Hr, Hx, Hc.
  unfold before_send_filter in H.
  apply bind_inr in H as [e1 [H1 H]].
  apply bind_inr in H as [e2 [H2 H]].
  apply bind_inr in H as [e3 [H3 H]]. injection H as <-.
  split; [|split].
  - destruct (dict_get event "request") as [r|] eqn:Er.
    + destruct r as [| | | | |rd]; try discriminate Hr. simpl in Hr.
      apply andb_prop in Hr as [Hh Hqs].
      destruct (strip_headers_done rd Hh) as [rd1 [E1 [D1 Q1]]].
      assert (Hq1 : forall q, dict_get rd1 "query_string" = Some q ->
                      exists s, q = VStr s /\ no_key_in_query s = true).
      { intros q Eq. rewrite Q1 in Eq. unfold entry_ok in Hqs. rewrite Eq in Hqs.
        destruct q as [| | | |s|]; try discriminate Hqs. exists s. split; [reflexivity|].
        apply (Hq rd s); [first [reflexivity | exact Er] | exact Eq]. }
      destruct (sanitize_query_done rd1 Hq1 D1) as [rd2 [E2 [D2 Q2]]].
      try rewrite Er in H1. rewrite E1 in H1. simpl in H1. rewrite E2 in H1. simpl in H1.
      injection H1 as <-.
      right. exists rd2. split; [|split; assumption].
      apply (contexts_step_pinned e2 e3); [discriminate | exact H3 |].
      apply (extra_step_pinned (dict_set event "request" (VDict rd2)) e2); [discriminate | exact H2 |].
      apply pinned_set.
    + try rewrite Er in H1. injection H1 as <-. left.
      rewrite (contexts_step_other e2 e3 "request"); [| discriminate | exact H3].
      rewrite (extra_step_other event e2 "request"); [exact Er | discriminate | exact H2].
  - destruct (dict_get event "extra") as [x|] eqn:Ex.
    + destruct x as [| | | | |m]; try discriminate Hx.
      assert (Ex1 : dict_get e1 "extra" = Some (VDict m)).
      { rewrite (request_step_other event e1 "extra"); [exact Ex | discriminate | exact H1]. }
      rewrite Ex1, redact_extra_dict in H2. simpl in H2. injection H2 as <-.
      right. exists m. apply (contexts_step_pinned (dict_set e1 "extra" (VDict (List.map redact_entry m))) e3); [discriminate | exact H3 | apply pinned_set].
    + assert (Ex1 : dict_get e1 "extra" = None).
      { rewrite (request_step_other event e1 "extra"); [exact Ex | discriminate | exact H1]. }
      rewrite Ex1 in H2. injection H2 as <-. left.
      rewrite (contexts_step_other e1 e3 "extra"); [exact Ex1 | discriminate | exact H3].
  - assert (Ec2 : dict_get e2 "contexts" = dict_get event "contexts").
    { rewrite (extra_step_other e1 e2 "contexts"); [| discriminate | exact H2].
      apply (request_step_other event e1 "contexts"); [discriminate | exact H1]. }
    destruct (dict_get event "contexts") as [c|] eqn:Ec.
    + destruct c as [| | | | |cd]; try discriminate Hc.
      destruct (redact_contexts_done cd Hc) as [cd' [E3 [Dd Ds]]].
      rewrite Ec2, E3 in H3. simpl in H3. injection H3 as <-.
      right. exists cd'. split; [apply pinned_set | split; assumption].
    + rewrite Ec2 in H3. injection H3 as <-. left. exact Ec2.
Qed.

(** Second pass: each step finds its entry already in final form. *)
Lemma strip_headers_fixed (rd : dict) :
  headers_done rd -> strip_headers (VDict rd) = inr (VDict rd).
Proof.
  intros Hd. unfold strip_headers. simpl. rewrite dict_contains_get.
  destruct Hd as [H|[hd P]].
  - rewrite H. reflexivity.
  - rewrite (pinned_get _ _ _ P). simpl.
    rewrite three_pops_idem, (pinned_set_noop _ _ _ P). reflexivity.
Qed.

Lemma sanitize_query_fixed (rd : dict) :
  query_done rd -> sanitize_query (VDict rd) = inr (VDict rd).
Proof.
  unfold query_done, sanitize_query. simpl. rewrite dict_contains_get.
  destruct (dict_get rd "query_string") as [q|] eqn:E; intros Hq; [|reflexivity].
  simpl. try rewrite E; simpl. destruct Hq as [T | [s [-> [Hs P]]]].
  - rewrite T. reflexivity.
  - unfold no_key_in_query in Hs. apply andb_prop in Hs as [Ht Ha].
    apply negb_true_iff in Ht, Ha. simpl.
    destruct (negb (String.eqb s "")); simpl; [|reflexivity].
    unfold str_replace.
    rewrite (replace_aux_absent "token=" _ s Ht), (replace_aux_absent "api_key=" _ s Ha).
    rewrite (pinned_set_noop _ _ _ P). reflexivity.
Qed.

Lemma redact_contexts_fixed (cd : dict) :
  database_done cd -> stripe_done cd -> redact_contexts (VDict cd) = inr (VDict cd).
Proof.
  intros Hd Hs. unfold database_done in Hd.
  assert (Hstripe : (let* has_stripe := py_in "stripe" (VDict cd) in
                     if has_stripe then
                       let* stripe := py_getitem (VDict cd) "stripe" in
                       let* stripe := py_pop stripe "secret_key" in
                       let* stripe := py_pop stripe "api_key" in
                       py_setitem (VDict cd) "stripe" stripe
                     else ret (VDict cd)) = inr (VDict cd)).
  { simpl. rewrite dict_contains_get. destruct Hs as [H|[sd P]].
    - rewrite H. reflexivity.
    - rewrite (pinned_get _ _ _ P). simpl.
      rewrite two_pops_idem, (pinned_set_noop _ _ _ P). reflexivity. }
  unfold redact_contexts. simpl. rewrite dict_contains_get.
  destruct (dict_get cd "database") as [db|] eqn:Edb; [|exact Hstripe].
  destruct db as [| | | | |dbd]; try contradiction Hd. simpl. try rewrite Edb; simpl.
  destruct Hd as [Hc|[Pd Pc]].
  - rewrite Hc. exact Hstripe.
  - rewrite (proj1 Pc). simpl.
    rewrite (pinned_set_noop _ _ _ Pc), (pinned_set_noop _ _ _ Pd). exact Hstripe.
Qed.

Lemma done_fixed (event hint : dict) :
  event_done event -> before_send_filter event hint = inr (Some event).
Proof.
  intros [Hr [Hx Hc]]. unfold before_send_filter.
  destruct Hr as [Hr|[rd [Pr [Hh Hq]]]].
  - rewrite Hr. cbv beta iota delta [bind ret].
    destruct Hx as [Hx|[m Px]].
    + rewrite Hx. 
      destruct Hc as [Hc|[cd [Pc [Dd Ds]]]].
      * rewrite Hc. reflexivity.
      * rewrite (pinned_get _ _ _ Pc), (redact_contexts_fixed cd Dd Ds).
        cbv beta iota. rewrite (pinned_set_noop _ _ _ Pc). reflexivity.
    + rewrite (pinned_get _ _ _ Px), redact_extra_dict. cbv beta iota.
      rewrite List.map_map.
      rewrite (List.map_ext (fun x => redact_entry (redact_entry x)) redact_entry redact_entry_idem).
      rewrite (pinned_set_noop _ _ _ Px).
      destruct Hc as [Hc|[cd [Pc [Dd Ds]]]].
      * rewrite Hc. reflexivity.
      * rewrite (pinned_get _ _ _ Pc), (redact_contexts_fixed cd Dd Ds).
        cbv beta iota. rewrite (pinned_set_noop _ _ _ Pc). reflexivity.
  - rewrite (pinned_get _ _ _ Pr), (strip_headers_fixed rd Hh), bind_inr_eq,
      (sanitize_query_fixed rd Hq), bind_inr_eq.
    cbv beta iota delta [bind ret]. rewrite (pinned_set_noop _ _ _ Pr).
    destruct Hx as [Hx|[m Px]].
    + rewrite Hx.
      destruct Hc as [Hc|[cd [Pc [Dd Ds]]]].
      * rewrite Hc. reflexivity.
      * rewrite (pinned_get _ _ _ Pc), (redact_contexts_fixed cd Dd Ds).
        cbv beta iota. rewrite (pinned_set_noop _ _ _ Pc). reflexivity.
    + rewrite (pinned_get _ _ _ Px), redact_extra_dict. cbv beta iota.
      rewrite List.map_map.
      rewrite (List.map_ext (fun x => redact_entry (redact_entry x)) redact_entry redact_entry_idem).
      rewrite (pinned_set_noop _ _ _ Px).
      destruct Hc as [Hc|[cd [Pc [Dd Ds]]]].
      * rewrite Hc. reflexivity.
      * rewrite (pinned_get _ _ _ Pc), (redact_contexts_fixed cd Dd Ds).
        cbv beta iota. rewrite (pinned_set_noop _ _ _ Pc). reflexivity.
Qed.

(** Extra: on an event whose [request], [extra] and [contexts] entries have
    the shapes the hook handles and whose query string contains neither
    [token=] nor [api_key=], the hook is idempotent: applied to its own
    output (with any hint) it returns that output unchanged. *)
Theorem clean_event_idempotent (event hint hint' event' : dict) :
  wf_event event = true ->
  (forall rd s, dict_get event "request" = Some (VDict rd) ->
     dict_get rd "query_string" = Some (VStr s) ->
     str_contains "token=" s = false /\ str_contains "api_key=" s = false) ->
  before_send_filter event hint = inr (Some event') ->
  before_send_filter event' hint' = inr (Some event').
Proof.
  intros Hwf Hq H. apply done_fixed. apply (first_pass_done event hint event' Hwf); [|exact H].
  intros rd s Hr Hs. destruct (Hq rd s Hr Hs) as [Ht Ha].
  unfold no_key_in_query. rewrite Ht, Ha. reflexivity.
Qed.

Lemma clean_event_idempotent_witness :
  before_send_filter
    [("request", VDict [("headers", VDict [("accept", VStr "*/*")]);
                          ("query_string", VStr "page=2")]);
       ("extra", VDict [("db_password", REDACTED); ("page", VInt 2)]);
       ("contexts", VDict [("database", VDict [("connection_string", REDACTED)]);
                           ("stripe", VDict [("account", VStr "acct_1")])])] [] = inr (Some
    [("request", VDict [("headers", VDict [("accept", VStr "*/*")]);
                          ("query_string", VStr "page=2")]);
       ("extra", VDict [("db_password", REDACTED); ("page", VInt 2)]);
       ("contexts", VDict [("database", VDict [("connection_string", REDACTED)]);
                           ("stripe", VDict [("account", VStr "acct_1")])])]).
Proof.
  apply (clean_event_idempotent
    [("request", VDict [("headers", VDict [("cookie", VStr "sid=1"); ("accept", VStr "*/*")]);
                          ("query_string", VStr "page=2")]);
       ("extra", VDict [("db_password", VStr "pw"); ("page", VInt 2)]);
       ("contexts", VDict [("database", VDict [("connection_string", VStr "postgres://u:p@h/db")]);
                           ("stripe", VDict [("api_key", VStr "sk_live"); ("account", VStr "acct_1")])])] [] []
    [("request", VDict [("headers", VDict [("accept", VStr "*/*")]);
                          ("query_string", VStr "page=2")]);
       ("extra", VDict [("db_password", REDACTED); ("page", VInt 2)]);
       ("contexts", VDict [("database", VDict [("connection_string", REDACTED)]);
                           ("stripe", VDict [("account", VStr "acct_1")])])]).
  - vm_compute. reflexivity.
  - intros rd s Hr Hs. vm_compute in Hr. injection Hr as <-.
    vm_compute in Hs. injection Hs as <-. split; vm_compute; reflexivity.
  - vm_compute. reflexivity.
Defined.

End SentryIdempotenceProofs.

(* ------------------------------------------------------------------ *)
(** ** The tracking functions and [init_app_insights] *)

Module AppInsightsExtraProofs.
Import Py AppInsights DictFacts AdapterInvariants.

Lemma dict_get_in (d : dict) (k : string) (v : Value) :
  dict_get d k = Some v -> In k (List.map fst d).
Proof.
  induction d as [|[k0 v0] d IH]; simpl; [discriminate|].
  destruct (String.eqb k0 k) eqn:E; intros H.
  - left. apply String.eqb_eq. exact E.
  - right. apply IH. exact H.
Qed.

(** For a dict without repeated keys, the last entry of a key is its only one. *)
Lemma dict_get_rev (d : dict) (k : string) :
  NoDup (List.map fst d) -> dict_get (rev d) k = dict_get d k.
Proof.
  induction d as [|[k0 v0] d IH]; intros Hnd; [reflexivity|].
  simpl in Hnd |- *. inversion Hnd as [|? ? Hnotin Hnd']; subst.
  rewrite dict_get_app, IH by exact Hnd'. simpl.
  destruct (String.eqb k0 k) eqn:E.
  - apply String.eqb_eq in E. subst k0.
    destruct (dict_get d k) as [v|] eqn:Ed; [|reflexivity].
    exfalso. apply Hnotin. exact (dict_get_in d k v Ed).
  - destruct (dict_get d k); reflexivity.
Qed.

(** [{**d1, **d2}]: a key of [d2] (its last entry) wins over [d1]. *)
Lemma dict_get_merge (d1 d2 : dict) (k : string) :
  dict_get (merge d1 d2) k
  = match dict_get (rev d2) k with Some v => Some v | None => dict_get d1 k end.
Proof.
  unfold merge. revert d1. induction d2 as [|[k0 v0] d2 IH]; intros d1; [reflexivity|].
  simpl. rewrite IH, dict_get_app.
  destruct (dict_get (rev d2) k); [reflexivity|]. simpl.
  destruct (String.eqb k0 k) eqn:E.
  - apply String.eqb_eq in E. subst k0. apply dict_get_set_same.
  - apply dict_get_set_other. intros Heq. subst k0. rewrite String.eqb_refl in E. discriminate E.
Qed.

(** Extra: with a logger, [track_trace] logs at INFO for every severity
    other than the four exact strings [DEBUG], [WARNING], [ERROR] and
    [CRITICAL] (so also for [warning] or [Error]), with the properties
    (or an empty mapping) as custom dimensions and no exception info. *)
Theorem trace_other_severity_is_info (st : State) (l message severity : string)
    (properties : option dict) :
  logger st = Some l ->
  existsb (String.eqb severity) ["DEBUG"; "WARNING"; "ERROR"; "CRITICAL"] = false ->
  track_trace st message severity properties
  = [LoggerCall INFO message None (or_empty properties)].
Proof.
  intros Hl Hs. unfold track_trace. rewrite Hl. simpl in Hs.
  apply orb_false_iff in Hs as [H1 Hs]. apply orb_false_iff in Hs as [H2 Hs].
  apply orb_false_iff in Hs as [H3 Hs]. apply orb_false_iff in Hs as [H4 _].
  rewrite H1, H2, H3, H4. reflexivity.
Qed.

Lemma trace_other_severity_is_info_witness :
  track_trace (fst (init_app_insights (fun _ => false)
                      [("APPLICATIONINSIGHTS_CONNECTION_STRING", "InstrumentationKey=k")]
                      initial_state))
              "cache miss" "warning" None
  = [LoggerCall INFO "cache miss" None (or_empty None)].
Proof.
  apply (trace_other_severity_is_info _ module_name); vm_compute; reflexivity.
Defined.



(** Extra: with a logger, [track_event] makes one INFO call ["Event: name"]
    whose custom dimensions give a key the measurement's value if there is
    one, else the property's, else the event name for [event_name]: the
    measurements override the properties, which override [event_name]. *)
Theorem event_dimensions_precedence (st : State) (l name : string)
    (properties measurements : dict) :
  logger st = Some l ->
  NoDup (List.map fst properties) -> NoDup (List.map fst measurements) ->
  exists dims,
    track_event st name (Some properties) (Some measurements)
    = [LoggerCall INFO ("Event: " ++ name) None dims]
    /\ forall k, dict_get dims k
                 = match dict_get measurements k with
                   | Some v => Some v
                   | None => match dict_get properties k with
                             | Some v => Some v
                             | None => if String.eqb k "event_name" then Some (VStr name) else None
                             end
                   end.
Proof.
  intros Hl Hp Hm. eexists. split.
  - unfold track_event. rewrite Hl. reflexivity.
  - intros k. simpl. rewrite dict_get_merge, dict_get_rev by exact Hm.
    rewrite dict_get_merge, dict_get_rev by exact Hp. cbn [dict_get].
    rewrite (String.eqb_sym "event_name" k). reflexivity.
Qed.

Lemma event_dimensions_precedence_witness :
  exists dims,
    track_event (fst (init_app_insights (fun _ => false)
                        [("APPLICATIONINSIGHTS_CONNECTION_STRING", "InstrumentationKey=k")]
                        initial_state))
      "signup" (Some [("event_name", VStr "override"); ("plan", VStr "pro")])
      (Some [("plan", VFloat 3)])
    = [LoggerCall INFO ("Event: " ++ "signup") None dims]
    /\ forall k, dict_get dims k
                 = match dict_get [("plan", VFloat 3)] k with
                   | Some v => Some v
                   | None => match dict_get [("event_name", VStr "override"); ("plan", VStr "pro")] k with
                             | Some v => Some v
                             | None => if String.eqb k "event_name" then Some (VStr "signup") else None
                             end
                   end.
Proof.
  apply (event_dimensions_precedence _ module_name).
  - vm_compute. reflexivity.
  - repeat constructor; simpl; intuition discriminate.
  - repeat constructor; simpl; intuition discriminate.
Defined.

(** Extra: with a logger, a request whose handler returns makes exactly one
    vendor call, an INFO log ["Request: METHOD path"] whose dimensions hold
    the URL, the duration in milliseconds, the status code, [success] as
    status below 400, and the method and path; the response is returned. *)
Theorem middleware_logs_request (st : State) (l : string) (request : Request)
    (response : Response) (start_time end_time : Q) :
  logger st = Some l ->
  exists dims,
    fst (app_insights_middleware request (Returned response) start_time end_time)
      = Returned response
    /\ flat_map (run_tracking st)
         (snd (app_insights_middleware request (Returned response) start_time end_time))
       = [LoggerCall INFO ("Request: " ++ (req_method request ++ " " ++ req_url_path request))
            None dims]
    /\ dict_get dims "url" = Some (VStr (req_url request))
    /\ dict_get dims "duration_ms" = Some (VFloat ((end_time - start_time) * 1000))
    /\ dict_get dims "response_code" = Some (VInt (status_code response))
    /\ dict_get dims "success" = Some (VBool (Z.ltb (status_code response) 400))
    /\ dict_get dims "method" = Some (VStr (req_method request))
    /\ dict_get dims "path" = Some (VStr (req_url_path request)).
Proof.
  intros Hl. eexists. split; [reflexivity|]. split.
  - simpl. unfold track_request. rewrite Hl. reflexivity.
  - repeat split; reflexivity.
Qed.

Lemma middleware_logs_request_witness :
  exists dims,
    fst (app_insights_middleware
           {| req_method := "GET"; req_url_path := "/api/users"; req_url := "http://h/api/users" |}
           (Returned {| status_code := 404 |}) 10 (21 # 2))
      = Returned {| status_code := 404 |}
    /\ flat_map (run_tracking (fst (init_app_insights (fun _ => false)
                      [("APPLICATIONINSIGHTS_CONNECTION_STRING", "InstrumentationKey=k")]
                      initial_state)))
         (snd (app_insights_middleware
                 {| req_method := "GET"; req_url_path := "/api/users"; req_url := "http://h/api/users" |}
                 (Returned {| status_code := 404 |}) 10 (21 # 2)))
       = [LoggerCall INFO ("Request: " ++ ("GET" ++ " " ++ "/api/users")) None dims]
    /\ dict_get dims "url" = Some (VStr "http://h/api/users")
    /\ dict_get dims "duration_ms" = Some (VFloat (((21 # 2) - 10) * 1000))
    /\ dict_get dims "response_code" = Some (VInt 404)
    /\ dict_get dims "success" = Some (VBool (Z.ltb 404 400))
    /\ dict_get dims "method" = Some (VStr "GET")
    /\ dict_get dims "path" = Some (VStr "/api/users").
Proof.
  refine (middleware_logs_request
            (fst (init_app_insights (fun _ => false)
                    [("APPLICATIONINSIGHTS_CONNECTION_STRING", "InstrumentationKey=k")]
                    initial_state)) module_name
            {| req_method := "GET"; req_url_path := "/api/users"; req_url := "http://h/api/users" |}
            {| status_code := 404 |} 10 (21 # 2) _).
  vm_compute. reflexivity.
Defined.

(** Extra: with a logger, a handler that raises an [Exception] makes exactly
    one vendor call, an ERROR log of the error's message carrying the error
    as exception info, with dimensions [exception_type], [exception_message],
    [method] and [path]; the same error is raised again. *)
Theorem middleware_logs_exception (st : State) (l : string) (request : Request)
    (e : PyErr) (start_time end_time : Q) :
  logger st = Some l ->
  err_is_exception e = true ->
  exists dims,
    fst (app_insights_middleware request (Raised e) start_time end_time) = Raised e
    /\ flat_map (run_tracking st)
         (snd (app_insights_middleware request (Raised e) start_time end_time))
       = [LoggerCall ERROR (err_message e) (Some e) dims]
    /\ dict_get dims "exception_type" = Some (VStr (err_type e))
    /\ dict_get dims "exception_message" = Some (VStr (err_message e))
    /\ dict_get dims "method" = Some (VStr (req_method request))
    /\ dict_get dims "path" = Some (VStr (req_url_path request)).
Proof.
  intros Hl He. eexists. unfold app_insights_middleware. rewrite He. split; [reflexivity|]. split.
  - simpl. unfold track_exception. rewrite Hl. reflexivity.
  - repeat split; reflexivity.
Qed.

Lemma middleware_logs_exception_witness :
  exists dims,
    fst (app_insights_middleware
           {| req_method := "POST"; req_url_path := "/api/pay"; req_url := "http://h/api/pay" |}
           (Raised {| err_type := "ValueError"; err_message := "bad amount"; err_is_exception := true |})
           0 1)
      = Raised {| err_type := "ValueError"; err_message := "bad amount"; err_is_exception := true |}
    /\ flat_map (run_tracking (fst (init_app_insights (fun _ => false)
                      [("APPLICATIONINSIGHTS_CONNECTION_STRING", "InstrumentationKey=k")]
                      initial_state)))
         (snd (app_insights_middleware
                 {| req_method := "POST"; req_url_path := "/api/pay"; req_url := "http://h/api/pay" |}
                 (Raised {| err_type := "ValueError"; err_message := "bad amount"; err_is_exception := true |})
                 0 1))
       = [LoggerCall ERROR "bad amount"
            (Some {| err_type := "ValueError"; err_message := "bad amount"; err_is_exception := true |}) dims]
    /\ dict_get dims "exception_type" = Some (VStr "ValueError")
    /\ dict_get dims "exception_message" = Some (VStr "bad amount")
    /\ dict_get dims "method" = Some (VStr "POST")
    /\ dict_get dims "path" = Some (VStr "/api/pay").
Proof.
  refine (middleware_logs_exception
            (fst (init_app_insights (fun _ => false)
                    [("APPLICATIONINSIGHTS_CONNECTION_STRING", "InstrumentationKey=k")]
                    initial_state)) module_name
            {| req_method := "POST"; req_url_path := "/api/pay"; req_url := "http://h/api/pay" |}
            {| err_type := "ValueError"; err_message := "bad amount"; err_is_exception := true |}
            0 1 _ _); vm_compute; reflexivity.
Defined.







End AppInsightsExtraProofs.

(* ------------------------------------------------------------------ *)
(** ** [init_sentry] *)

Module SentryInitProofs.
Import Py Sentry SentryInit.

(** Extra: [init_sentry] skips [sentry_sdk.init] exactly when [SENTRY_DSN]
    is unset or empty. *)
Theorem init_sentry_disabled_iff (env : list (string * string)) :
  init_sentry env = None
  <-> (AppInsights.getenv env "SENTRY_DSN" = None \/ AppInsights.getenv env "SENTRY_DSN" = Some "").
Proof.
  unfold init_sentry. destruct (AppInsights.getenv env "SENTRY_DSN") as [[|c dsn]|]; split.
  - intros _. right. reflexivity.
  - intros _. reflexivity.
  - discriminate.
  - intros [H|H]; discriminate H.
  - intros _. left. reflexivity.
  - intros _. reflexivity.
Qed.

(** Extra: with a non-empty DSN, [sentry_sdk.init] gets that DSN, the two
    filter hooks, equal trace and profile sample rates, and the environment
    [SENTRY_ENVIRONMENT], else [NODE_ENV], else ["development"]; the rates
    are 1/10 exactly in ["production"] and 1 otherwise. *)
Theorem init_sentry_options (env : list (string * string)) (dsn : string) :
  AppInsights.getenv env "SENTRY_DSN" = Some dsn -> dsn <> "" ->
  exists o, init_sentry env = Some o
    /\ opt_dsn o = dsn
    /\ opt_before_send o = before_send_filter
    /\ opt_before_breadcrumb o = before_breadcrumb_filter
    /\ opt_traces_sample_rate o = opt_profiles_sample_rate o
    /\ (forall e, AppInsights.getenv env "SENTRY_ENVIRONMENT" = Some e -> opt_environment o = e)
    /\ (forall e, AppInsights.getenv env "SENTRY_ENVIRONMENT" = None ->
          AppInsights.getenv env "NODE_ENV" = Some e -> opt_environment o = e)
    /\ (AppInsights.getenv env "SENTRY_ENVIRONMENT" = None ->
          AppInsights.getenv env "NODE_ENV" = None -> opt_environment o = "development")
    /\ (opt_traces_sample_rate o = 1 # 10 <-> opt_environment o = "production")
    /\ (opt_traces_sample_rate o = 1%Q <-> opt_environment o <> "production").
Proof.
  intros Hd Hne. unfold init_sentry. rewrite Hd.
  destruct dsn as [|c dsn]; [contradiction Hne; reflexivity|].
  eexists. split; [reflexivity|]. cbn [opt_dsn opt_environment opt_traces_sample_rate
    opt_profiles_sample_rate opt_before_send opt_before_breadcrumb].
  destruct (AppInsights.getenv env "SENTRY_ENVIRONMENT") as [se|] eqn:Hse;
    [|destruct (AppInsights.getenv env "NODE_ENV") as [ne|] eqn:Hn]; simpl;
    try (match goal with
         | |- context [String.eqb ?x "production"] => destruct (String.eqb_spec x "production")
         end);
    repeat split; intros; try congruence.
Qed.

Lemma init_sentry_options_witness :
  exists o, init_sentry [("SENTRY_DSN", "https://k@o1.ingest.sentry.io/1"); ("NODE_ENV", "production")]
            = Some o
    /\ opt_dsn o = "https://k@o1.ingest.sentry.io/1"
    /\ opt_before_send o = before_send_filter
    /\ opt_before_breadcrumb o = before_breadcrumb_filter
    /\ opt_traces_sample_rate o = opt_profiles_sample_rate o
    /\ (forall e, AppInsights.getenv [("SENTRY_DSN", "https://k@o1.ingest.sentry.io/1"); ("NODE_ENV", "production")]
                    "SENTRY_ENVIRONMENT" = Some e -> opt_environment o = e)
    /\ (forall e, AppInsights.getenv [("SENTRY_DSN", "https://k@o1.ingest.sentry.io/1"); ("NODE_ENV", "production")]
                    "SENTRY_ENVIRONMENT" = None ->
          AppInsights.getenv [("SENTRY_DSN", "https://k@o1.ingest.sentry.io/1"); ("NODE_ENV", "production")]
            "NODE_ENV" = Some e -> opt_environment o = e)
    /\ (AppInsights.getenv [("SENTRY_DSN", "https://k@o1.ingest.sentry.io/1"); ("NODE_ENV", "production")]
          "SENTRY_ENVIRONMENT" = None ->
          AppInsights.getenv [("SENTRY_DSN", "https://k@o1.ingest.sentry.io/1"); ("NODE_ENV", "production")]
            "NODE_ENV" = None -> opt_environment o = "development")
    /\ (opt_traces_sample_rate o = 1 # 10 <-> opt_environment o = "production")
    /\ (opt_traces_sample_rate o = 1%Q <-> opt_environment o <> "production").
Proof.
  apply init_sentry_options; [reflexivity | discriminate].
Defined.

End SentryInitProofs.
